(** * debug_audit.py: the Audit Runner

    A shallow embedding of [src/debug_audit.py].  The script has a single
    operation, [run()], which prints a banner, launches the audit script
    with [subprocess.run] (captured, decoded as UTF-8 with
    [errors='ignore']), prints the two captured streams and the exit code,
    and turns any [Exception] raised on the way into a "FAILED: ..." line.

    Layout of the development:
    - [PyStr]      Python text ([str]) as a sequence of code points,
                   literals, decimal rendering of integers, lines;
    - [Utf8]       the UTF-8 codec reached through [encoding='utf-8'],
                   with its error policies, and the newline translation
                   of text mode;
    - [Py]         exceptions, the machine state, the state-and-exception
                   monad in which the statements of [run] are sequenced;
    - [DebugAudit] the operations [print], [subprocess_run] and [run];
    - [AuditSpec], [AuditTrace]
                   the vocabulary of the statements and a few concrete
                   surroundings to run the wrapper in;
    - [Utf8Facts], [PyStrFacts], [RunFacts], [RunShape], [RunCases],
      [LineFacts], [TraceFacts], [RunTaken]
                   the lemmas;
    - the contract of [run], claim by claim, and what holds beyond it
      (console errors, the shape of the trace, the captured text). *)

From Stdlib Require Import ZArith List String Ascii Lia Bool.
From Stdlib.Strings Require Import Byte.
From Stdlib Require Import DecimalString DecimalZ.
Import ListNotations.

Local Open Scope Z_scope.

(* ------------------------------------------------------------------ *)
(** ** Python text *)

Module PyStr.

(** A Python [str] is a sequence of Unicode code points. *)
Definition codepoint := Z.
Definition str := list codepoint.

(** A literal of the source, given by its ASCII characters. *)
Definition lit (s : string) : str :=
  map (fun a => Z.of_N (N_of_ascii a)) (list_ascii_of_string s).

(** The line feed written by [print] after its argument. *)
Definition LF : codepoint := 10.
Definition CR : codepoint := 13.

(** [str(n)] and the [{n}] of an f-string for an [int]: an optional minus
    sign and the decimal digits, no leading zero. *)
Definition str_of_int (n : Z) : str :=
  lit (NilZero.string_of_int (Z.to_int n)).

(** The characters of a text as bytes of a Rocq string (code points
    above 255 are cut to their low byte; used on ASCII text only). *)
Definition unlit (t : str) : string :=
  string_of_list_ascii (map (fun c => ascii_of_N (Z.to_N c)) t).

(** Reading a decimal numeral back: an optional minus sign and digits. *)
Definition int_of_str (t : str) : option Z :=
  option_map Z.of_int (NilZero.int_of_string (unlit t)).

(** [s.startswith(p)]. *)
Fixpoint startswith (p s : str) : bool :=
  match p, s with
  | [], _ => true
  | _ :: _, [] => false
  | a :: p', b :: s' => (a =? b) && startswith p' s'
  end.

(** [s.split("\n")]: the maximal runs without a line feed; a text with [k]
    line feeds has [k + 1] of them. *)
Fixpoint split_lines (s : str) : list str :=
  match s with
  | [] => [[]]
  | c :: s' =>
      if c =? LF then [] :: split_lines s'
      else match split_lines s' with
           | [] => [[c]]
           | l :: ls => (c :: l) :: ls
           end
  end.

End PyStr.

(* ------------------------------------------------------------------ *)
(** ** Decoding the captured streams

    [subprocess.run(..., text=True, encoding='utf-8', errors='ignore')]
    reads the raw bytes of each pipe and turns them into text with
    [data.decode(encoding, errors)] followed by the newline translation of
    text mode.  The decoder is the interpreter's UTF-8 codec; it is
    modelled here as a loop around a one-character step, the loop
    consulting the error policy whenever the step reports a malformed
    range. *)

Module Utf8.
Import PyStr.

Definition byte_val (b : byte) : Z := Z.of_N (Byte.to_N b).

(** The [errors=] argument. *)
Inductive errors := Strict | Ignore | Replace.

(** The three complaints of the codec. *)
Inductive reason :=
| InvalidStartByte
| InvalidContinuationByte
| UnexpectedEndOfData.

(** Outcome of looking at the front of the input: a character and the
    number of bytes it occupies, or a malformed range and its length. *)
Inductive step :=
| Decoded (ch : codepoint) (n : nat)
| Malformed (r : reason) (n : nat).

Definition is_continuation (b : Z) : bool := (0x80 <=? b) && (b <? 0xC0).

(** Second byte excluded after the lead byte of a three-byte form:
    not a continuation, an overlong form after E0, a surrogate after ED. *)
Definition bad_second3 (ch ch2 : Z) : bool :=
  negb (is_continuation ch2) ||
  (if ch2 <? 0xA0 then ch =? 0xE0 else ch =? 0xED).

(** Second byte excluded after the lead byte of a four-byte form:
    not a continuation, an overlong form after F0, above 10FFFF after F4. *)
Definition bad_second4 (ch ch2 : Z) : bool :=
  negb (is_continuation ch2) ||
  (if ch2 <? 0x90 then ch =? 0xF0 else ch =? 0xF4).

Definition utf8_step (s : list byte) : step :=
  match s with
  | [] => Malformed UnexpectedEndOfData 0
  | b :: s1 =>
    let ch := byte_val b in
    if ch <? 0x80 then Decoded ch 1
    else if ch <? 0xE0 then
      (* C2 80 .. DF BF : 0080 .. 07FF *)
      if ch <? 0xC2 then Malformed InvalidStartByte 1
      else match s1 with
           | [] => Malformed UnexpectedEndOfData 1
           | b2 :: _ =>
             let ch2 := byte_val b2 in
             if negb (is_continuation ch2)
             then Malformed InvalidContinuationByte 1
             else Decoded (Z.shiftl ch 6 + ch2
                           - (Z.shiftl 0xC0 6 + 0x80)) 2
           end
    else if ch <? 0xF0 then
      (* E0 A0 80 .. EF BF BF : 0800 .. FFFF *)
      match s1 with
      | [] => Malformed UnexpectedEndOfData 1
      | b2 :: s2 =>
        let ch2 := byte_val b2 in
        if bad_second3 ch ch2 then Malformed InvalidContinuationByte 1
        else match s2 with
             | [] => Malformed UnexpectedEndOfData 2
             | b3 :: _ =>
               let ch3 := byte_val b3 in
               if negb (is_continuation ch3)
               then Malformed InvalidContinuationByte 2
               else Decoded (Z.shiftl ch 12 + Z.shiftl ch2 6 + ch3
                             - (Z.shiftl 0xE0 12 + Z.shiftl 0x80 6 + 0x80)) 3
             end
      end
    else if ch <? 0xF5 then
      (* F0 90 80 80 .. F4 8F BF BF : 10000 .. 10FFFF *)
      match s1 with
      | [] => Malformed UnexpectedEndOfData 1
      | b2 :: s2 =>
        let ch2 := byte_val b2 in
        if bad_second4 ch ch2 then Malformed InvalidContinuationByte 1
        else match s2 with
             | [] => Malformed UnexpectedEndOfData 2
             | b3 :: s3 =>
               let ch3 := byte_val b3 in
               if negb (is_continuation ch3)
               then Malformed InvalidContinuationByte 2
               else match s3 with
                    | [] => Malformed UnexpectedEndOfData 3
                    | b4 :: _ =>
                      let ch4 := byte_val b4 in
                      if negb (is_continuation ch4)
                      then Malformed InvalidContinuationByte 3
                      else Decoded
                             (Z.shiftl ch 18 + Z.shiftl ch2 12
                              + Z.shiftl ch3 6 + ch4
                              - (Z.shiftl 0xF0 18 + Z.shiftl 0x80 12
                                 + Z.shiftl 0x80 6 + 0x80)) 4
                    end
             end
      end
    else Malformed InvalidStartByte 1
  end.

(** What [bytes.decode] gives back: the text, or the fields of the
    [UnicodeDecodeError] it raises ([start], [end], [reason]). *)
Inductive decoded :=
| DecodeOk (t : str)
| DecodeError (start stop : nat) (r : reason).

Definition push (ch : codepoint) (d : decoded) : decoded :=
  match d with
  | DecodeOk t => DecodeOk (ch :: t)
  | DecodeError _ _ _ => d
  end.

(** U+FFFD, written by the [replace] policy for each malformed range. *)
Definition REPLACEMENT : codepoint := 0xFFFD.

(** The decoding loop.  The codec advances a cursor over the buffer by
    the length the step reports; here the loop walks the buffer byte by
    byte and [skip] counts the bytes still covered by the last step, so
    that [pos] is the cursor and the step only runs where [skip] is 0. *)
Fixpoint decode_loop (e : errors) (pos skip : nat) (s : list byte)
  : decoded :=
  match s with
  | [] => DecodeOk []
  | _ :: s' =>
    match skip with
    | S k => decode_loop e (S pos) k s'
    | O =>
      match utf8_step s with
      | Decoded ch n => push ch (decode_loop e (S pos) (pred n) s')
      | Malformed r n =>
          match e with
          | Strict => DecodeError pos (pos + n) r
          | Ignore => decode_loop e (S pos) (pred n) s'
          | Replace => push REPLACEMENT (decode_loop e (S pos) (pred n) s')
          end
      end
    end
  end.

(** [data.decode('utf-8', errors)]. *)
Definition decode (e : errors) (s : list byte) : decoded :=
  decode_loop e 0 0 s.

(** The other direction, used to say what well-formed input is:
    [text.encode('utf-8')] on text made of Unicode scalar values (the
    code points 0 .. 10FFFF without the surrogates D800 .. DFFF). *)
Definition is_scalar (c : codepoint) : bool :=
  ((0 <=? c) && (c <? 0xD800)) || ((0xE000 <=? c) && (c <? 0x110000)).

Definition to_byte (v : Z) : byte :=
  match Byte.of_N (Z.to_N v) with
  | Some b => b
  | None => x00
  end.

Definition encode_char (c : codepoint) : list byte :=
  if c <? 0x80 then
    [to_byte c]
  else if c <? 0x800 then
    [to_byte (0xC0 + c / 64);
     to_byte (0x80 + c mod 64)]
  else if c <? 0x10000 then
    [to_byte (0xE0 + c / 4096);
     to_byte (0x80 + (c / 64) mod 64);
     to_byte (0x80 + c mod 64)]
  else
    [to_byte (0xF0 + c / 262144);
     to_byte (0x80 + (c / 4096) mod 64);
     to_byte (0x80 + (c / 64) mod 64);
     to_byte (0x80 + c mod 64)].

Definition encode (t : str) : list byte := flat_map encode_char t.

(** [text.replace("\r\n", "\n")]. *)
Fixpoint replace_crlf (t : str) : str :=
  match t with
  | [] => []
  | c :: t' =>
      match t' with
      | c2 :: t'' =>
          if (c =? CR) && (c2 =? LF) then LF :: replace_crlf t''
          else c :: replace_crlf t'
      | [] => [c]
      end
  end.

(** [text.replace("\r", "\n")]. *)
Definition replace_cr (t : str) : str :=
  map (fun c => if c =? CR then LF else c) t.

(** [Popen._translate_newlines] once the text is decoded. *)
Definition translate_newlines (t : str) : str :=
  replace_cr (replace_crlf t).

(** Deleting bytes: [subseq s' s] when [s'] is [s] with some bytes left
    out. *)
Inductive subseq : list byte -> list byte -> Prop :=
| subseq_nil : subseq [] []
| subseq_keep b s' s : subseq s' s -> subseq (b :: s') (b :: s)
| subseq_drop b s' s : subseq s' s -> subseq s' (b :: s).

End Utf8.

(* ------------------------------------------------------------------ *)
(** ** Exceptions, machine state and the monad of statements *)

Module Py.
Import PyStr.

(** The part of the exception hierarchy that [except Exception] is
    sensitive to: the three classes that derive from [BaseException]
    directly, and everything below [Exception], kept by name. *)
Inductive exc_class :=
| SystemExit
| KeyboardInterrupt
| GeneratorExit
| ExceptionSub (name : string).

(** A raised exception: its class and [str(e)]. *)
Record exc := { exc_class_of : exc_class; exc_str : str }.

(** [isinstance(e, Exception)]. *)
Definition is_Exception (e : exc) : bool :=
  match exc_class_of e with
  | ExceptionSub _ => true
  | _ => false
  end.

(** What the process does to the outside, in the order it does it. *)
Inductive event :=
| Printed (text : str)            (* [text] and a line feed reached stdout *)
| Launched (argv : list str).     (* a child was requested with [argv] *)

(** The state a Python process can change: the trace of console writes
    and launches, the files, the environment variables, the bytes sent
    over the network. *)
Record machine := {
  log : list event;
  files : list (str * list byte);
  environ : list (str * str);
  sent : list (list byte)
}.

(** Appending to the trace touches nothing else. *)
Definition emit (evs : list event) (m : machine) : machine :=
  {| log := log m ++ evs;
     files := files m;
     environ := environ m;
     sent := sent m |}.

Definition record (ev : event) (m : machine) : machine := emit [ev] m.

(** A statement either completes with a value or raises. *)
Inductive outcome (A : Type) :=
| Return (a : A)
| Raise (e : exc).
Arguments Return {A} a.
Arguments Raise {A} e.

Definition M (A : Type) : Type := machine -> outcome A * machine.

Definition ret {A} (a : A) : M A := fun m => (Return a, m).

Definition bind {A B} (c : M A) (k : A -> M B) : M B :=
  fun m =>
    match c m with
    | (Return a, m') => k a m'
    | (Raise e, m') => (Raise e, m')
    end.

Definition raise {A} (e : exc) : M A := fun m => (Raise e, m).

(** [try: body  except Exception as e: handler(e)]. *)
Definition try_except_Exception {A} (body : M A) (handler : exc -> M A)
  : M A :=
  fun m =>
    match body m with
    | (Return a, m') => (Return a, m')
    | (Raise e, m') =>
        if is_Exception e then handler e m' else (Raise e, m')
    end.

(** The text on the console after a trace: each [print] contributes its
    argument and a line feed. *)
Fixpoint console_text (evs : list event) : str :=
  match evs with
  | [] => []
  | Printed t :: evs' => t ++ [LF] ++ console_text evs'
  | Launched _ :: evs' => console_text evs'
  end.

(** The launches of a trace. *)
Fixpoint launches (evs : list event) : list (list str) :=
  match evs with
  | [] => []
  | Printed _ :: evs' => launches evs'
  | Launched argv :: evs' => argv :: launches evs'
  end.

End Py.

Declare Scope py_scope.
Delimit Scope py_scope with py.
Notation "x <- c ;; k" := (Py.bind c (fun x => k))
  (at level 61, c at next level, right associativity) : py_scope.
Notation "c ;; k" := (Py.bind c (fun _ => k))
  (at level 61, right associativity) : py_scope.

(* ------------------------------------------------------------------ *)
(** ** The audit runner *)

Module DebugAudit.
Import PyStr Py.

(** What becomes of the child once it is asked for: it runs to the end,
    leaving the raw bytes of its two pipes and its exit status, or the
    attempt raises. *)
Inductive launch :=
| Exits (out err : list byte) (returncode : Z)
| Raises (e : exc).

(** A file object open for writing text: whether its [write] refuses a
    text, and with which error, given what was written so far. *)
Definition stream : Type := list event -> str -> option exc.

(** Everything [run] reads from its surroundings. *)
Record world := {
  (** [sys.executable] *)
  sys_executable : str;
  (** the behaviour of the operating system and of the child for a given
      argument vector *)
  child : list str -> launch;
  (** [sys.stdout]: [None], or a file object *)
  sys_stdout : option stream
}.

(** [subprocess.CompletedProcess]. *)
Record CompletedProcess := {
  args : list str;
  returncode : Z;
  stdout : str;
  stderr : str
}.

(** [print(text)]: nothing at all when [sys.stdout] is [None],
    otherwise the text and a line feed go to the file, whose error, if
    any, is raised. *)
Definition print (w : world) (text : str) : M unit :=
  fun m =>
    match sys_stdout w with
    | None => (Return tt, m)
    | Some file =>
        match file (log m) text with
        | Some e => (Raise e, m)
        | None => (Return tt, record (Printed text) m)
        end
    end.

Definition hex_digit (n : Z) : codepoint :=
  if n <? 10 then 48 + n else 87 + n.

Definition reason_str (r : Utf8.reason) : str :=
  match r with
  | Utf8.InvalidStartByte => lit "invalid start byte"
  | Utf8.InvalidContinuationByte => lit "invalid continuation byte"
  | Utf8.UnexpectedEndOfData => lit "unexpected end of data"
  end.

(** [UnicodeDecodeError('utf-8', data, start, stop, reason)]. *)
Definition UnicodeDecodeError (data : list byte) (start stop : nat)
           (r : Utf8.reason) : exc :=
  {| exc_class_of := ExceptionSub "UnicodeDecodeError";
     exc_str :=
       if Nat.eqb stop (S start) then
         let b := Utf8.byte_val (nth start data x00) in
         lit "'utf-8' codec can't decode byte 0x"
         ++ [hex_digit (b / 16); hex_digit (b mod 16)]
         ++ lit " in position " ++ str_of_int (Z.of_nat start)
         ++ lit ": " ++ reason_str r
       else
         lit "'utf-8' codec can't decode bytes in position "
         ++ str_of_int (Z.of_nat start) ++ lit "-"
         ++ str_of_int (Z.of_nat stop - 1)
         ++ lit ": " ++ reason_str r |}.

(** One captured pipe as text: decoding, then universal newlines. *)
Definition capture (errors : Utf8.errors) (data : list byte) : M str :=
  match Utf8.decode errors data with
  | Utf8.DecodeOk t => ret (Utf8.translate_newlines t)
  | Utf8.DecodeError start stop r =>
      raise (UnicodeDecodeError data start stop r)
  end.

Local Open Scope py_scope.

(** [subprocess.run(argv, capture_output=True, text=True,
    encoding='utf-8', errors=errors)]. *)
Definition subprocess_run (w : world) (argv : list str)
           (errors : Utf8.errors) : M CompletedProcess :=
  fun m =>
    let m' := record (Launched argv) m in
    match child w argv with
    | Raises e => (Raise e, m')
    | Exits out err code =>
        (o <- capture errors out ;;
         e <- capture errors err ;;
         ret {| args := argv; returncode := code;
                stdout := o; stderr := e |}) m'
    end.

Definition BANNER : str := lit "Starting Audit...".
Definition SCRIPT : str :=
  lit ".agent/skills/frontend-design/scripts/ux_audit.py".

(** The invocation spec of the source. *)
Definition invocation (w : world) : list str :=
  [sys_executable w; SCRIPT; lit "."].

(** The body of the [try]. *)
Definition guarded (w : world) : M unit :=
  result <- subprocess_run w (invocation w) Utf8.Ignore ;;
  print w (lit "STDOUT:") ;;
  print w (stdout result) ;;
  print w (lit "STDERR:") ;;
  print w (stderr result) ;;
  print w (lit "EXIT CODE: " ++ str_of_int (returncode result)).

(** The [except Exception as e] clause. *)
Definition handler (w : world) (e : exc) : M unit :=
  print w (lit "FAILED: " ++ exc_str e).

(** [def run()]. *)
Definition run (w : world) : M unit :=
  print w BANNER ;;
  try_except_Exception (guarded w) (handler w).

Local Close Scope py_scope.

End DebugAudit.

(* ------------------------------------------------------------------ *)
(** ** Vocabulary of the statements, and some concrete surroundings *)

Module AuditSpec.
Import PyStr Py DebugAudit.

(** What becomes of a text handed to [print]. *)
Inductive written :=
| Written                 (* it reached the console *)
| Dropped                 (* there is no [sys.stdout] *)
| Refused (e : exc).      (* the file raised [e] *)

Definition write (w : world) (evs : list event) (t : str) : written :=
  match sys_stdout w with
  | None => Dropped
  | Some file =>
      match file evs t with
      | Some e => Refused e
      | None => Written
      end
  end.

(** The console takes every write. *)
Definition console_ok (w : world) : Prop :=
  forall evs t, write w evs t = Written.

(** The text [subprocess.run] hands back for the raw bytes of a pipe
    under [errors='ignore'] (the second branch is never taken, see
    [capture_ignore]). *)
Definition captured (data : list byte) : str :=
  match Utf8.decode Utf8.Ignore data with
  | Utf8.DecodeOk t => Utf8.translate_newlines t
  | Utf8.DecodeError _ _ _ => []
  end.


Definition is_exit_code_line (ev : event) : bool :=
  match ev with
  | Printed t => startswith (lit "EXIT CODE:") t
  | Launched _ => false
  end.

Definition is_print (ev : event) : bool :=
  match ev with
  | Printed _ => true
  | Launched _ => false
  end.

(** What a run starting in [m] adds to the trace. *)
Definition events_of (w : world) (m : machine) : list event :=
  skipn (List.length (log m)) (log (snd (run w m))).

(** The wrapper's printed output. *)
Definition printed_by (w : world) (m : machine) : str :=
  console_text (events_of w m).

(** The argument vectors the wrapper hands to the launcher. *)
Definition launched_by (w : world) (m : machine) : list (list str) :=
  launches (events_of w m).

(** The trace of a report that goes through. *)
Definition report (w : world) (o e : str) (code : Z) : list event :=
  [Launched (invocation w);
   Printed (lit "STDOUT:"); Printed o;
   Printed (lit "STDERR:"); Printed e;
   Printed (lit "EXIT CODE: " ++ str_of_int code)].

(** A statement whose only effect is to write to the console. *)
Definition prints_only {A} (c : M A) : Prop :=
  forall m, exists r evs,
    c m = (r, emit evs m) /\ forallb is_print evs = true.

(** A fresh process. *)
Definition boot : machine :=
  {| log := []; files := []; environ := []; sent := [] |}.

Definition quiet : stream := fun _ _ => None.

Definition python3 : str := lit "/usr/bin/python3".

(** The audit prints OK and exits 0. *)
Definition world_ok : world :=
  {| sys_executable := python3;
     child := fun _ => Exits [x4f; x4b] [] 0;
     sys_stdout := Some quiet |}.

(** The audit complains on stderr and exits 2. *)
Definition world_bad_arg : world :=
  {| sys_executable := python3;
     child := fun _ =>
       Exits [] [x65; x72; x72; x6f; x72; x3a; x20; x62; x61; x64; x20;
                 x61; x72; x67] 2;
     sys_stdout := Some quiet |}.

(** The audit writes a stray FF byte, a CR LF and a truncated
    three-byte form around OK; it is killed by signal 9. *)
Definition world_garbled : world :=
  {| sys_executable := python3;
     child := fun _ => Exits [xff; x4f; x4b; x0d; x0a; xe2; x82] [xc3] (-9);
     sys_stdout := Some quiet |}.

Definition FileNotFoundError : exc :=
  {| exc_class_of := ExceptionSub "FileNotFoundError";
     exc_str :=
       lit "[Errno 2] No such file or directory: '/usr/bin/python3'" |}.

(** The interpreter binary is gone. *)
Definition world_missing : world :=
  {| sys_executable := python3;
     child := fun _ => Raises FileNotFoundError;
     sys_stdout := Some quiet |}.

Definition interrupt : exc :=
  {| exc_class_of := KeyboardInterrupt; exc_str := [] |}.

(** The operator presses Ctrl-C while the audit is running. *)
Definition world_interrupted : world :=
  {| sys_executable := python3;
     child := fun _ => Raises interrupt;
     sys_stdout := Some quiet |}.

Definition closed_file : exc :=
  {| exc_class_of := ExceptionSub "ValueError";
     exc_str := lit "I/O operation on closed file." |}.

(** Standard output was closed before [run] is called. *)
Definition world_closed : world :=
  {| sys_executable := python3;
     child := fun _ => Exits [x4f; x4b] [] 0;
     sys_stdout := Some (fun _ _ => Some closed_file) |}.

Definition charmap_error : exc :=
  {| exc_class_of := ExceptionSub "UnicodeEncodeError";
     exc_str :=
       lit "'charmap' codec can't encode character '\u2713' in position 0: character maps to <undefined>" |}.

(** Standard output is a pipe with a one-byte code page: it refuses a
    text that holds a code point above FF.  The audit prints a check
    mark (E2 9C 93) and exits 0. *)
Definition world_charmap : world :=
  {| sys_executable := python3;
     child := fun _ => Exits [xe2; x9c; x93] [] 0;
     sys_stdout := Some (fun _ t =>
       if existsb (fun c => 0xFF <? c) t then Some charmap_error
       else None) |}.

End AuditSpec.

(* ------------------------------------------------------------------ *)
(** ** Vocabulary for the traces of a run *)

Module AuditTrace.
Import PyStr Py DebugAudit AuditSpec.

(** The five texts of the report, in the order [run] prints them. *)
Definition report_texts (o e : str) (code : Z) : list str :=
  [lit "STDOUT:"; o; lit "STDERR:"; e;
   lit "EXIT CODE: " ++ str_of_int code].

(** Printing texts one after the other. *)
Fixpoint print_seq (w : world) (ts : list str) : M unit :=
  match ts with
  | [] => ret tt
  | t :: ts' => bind (print w t) (fun _ => print_seq w ts')
  end.

(** The console takes the texts [ts] one after the other when the trace
    so far is [evs]. *)
Fixpoint takes (w : world) (evs : list event) (ts : list str) : bool :=
  match ts with
  | [] => true
  | t :: ts' =>
      match write w evs t with
      | Written => takes w (evs ++ [Printed t]) ts'
      | _ => false
      end
  end.

(** Reading the exit code back from the printed text, as a caller of
    the wrapper would: the last line before the final line feed has to
    be "EXIT CODE: " followed by a decimal numeral. *)
Definition status_line (text : str) : str :=
  nth 1 (rev (split_lines text)) [].

Definition parse_exit_code (text : str) : option Z :=
  let l := status_line text in
  if startswith (lit "EXIT CODE: ") l then int_of_str (skipn 11 l)
  else None.

(** The escape of a code point in the message of an encoding error. *)
Definition hex (digits : nat) (c : Z) : str :=
  map (fun i => hex_digit ((c / 16 ^ Z.of_nat i) mod 16))
      (rev (seq 0 digits)).

Definition escape (c : codepoint) : str :=
  if c <? 0x100 then lit "\x" ++ hex 2 c
  else if c <? 0x10000 then lit "\u" ++ hex 4 c
  else lit "\U" ++ hex 8 c.

(** Position and value of the first code point above 7F. *)
Fixpoint first_non_ascii (pos : nat) (t : str) : option (nat * codepoint) :=
  match t with
  | [] => None
  | c :: t' =>
      if 0x7F <? c then Some (pos, c) else first_non_ascii (S pos) t'
  end.

(** Standard output opened with the ASCII codec. *)
Definition ascii_console : stream :=
  fun _ t =>
    match first_non_ascii 0 t with
    | None => None
    | Some (pos, c) =>
        Some {| exc_class_of := ExceptionSub "UnicodeEncodeError";
                exc_str :=
                  lit "'ascii' codec can't encode character '"
                  ++ escape c ++ lit "' in position "
                  ++ str_of_int (Z.of_nat pos)
                  ++ lit ": ordinal not in range(128)" |}
    end.

(** An interpreter installed under a directory with an o-umlaut in its
    name. *)
Definition python_umlaut : str :=
  lit "/opt/pyth" ++ [0xF6] ++ lit "n/bin/python3".

Definition umlaut_missing : exc :=
  {| exc_class_of := ExceptionSub "FileNotFoundError";
     exc_str :=
       lit "[Errno 2] No such file or directory: '"
       ++ python_umlaut ++ lit "'" |}.

(** That interpreter is gone, and the console is ASCII only. *)
Definition world_ascii_missing : world :=
  {| sys_executable := python_umlaut;
     child := fun _ => Raises umlaut_missing;
     sys_stdout := Some ascii_console |}.

(** The audit prints "caf" and an e-acute (C3 A9), then a line feed,
    on an ASCII-only console, and exits 3. *)
Definition world_ascii_cafe : world :=
  {| sys_executable := python3;
     child := fun _ => Exits [x63; x61; x66; xc3; xa9; x0a] [] 3;
     sys_stdout := Some ascii_console |}.

(** The audit prints lines that look like the wrapper's own status
    lines before exiting 7. *)
Definition world_mimic : world :=
  {| sys_executable := python3;
     child := fun _ =>
       Exits [x45; x58; x49; x54; x20; x43; x4f; x44; x45; x3a; x20; x30;
              x0d; x0a; x46; x41; x49; x4c; x45; x44; x3a; x20; x78]
             [x0a; x0a] 7;
     sys_stdout := Some quiet |}.

(** The process has no standard output ([sys.stdout] is [None], as
    under a windowless interpreter); the audit prints OK and exits 0. *)
Definition world_no_stdout : world :=
  {| sys_executable := python3;
     child := fun _ => Exits [x4f; x4b] [] 0;
     sys_stdout := None |}.

(** The audit prints OK and exits 0, on an ASCII-only console. *)
Definition world_ascii_ok : world :=
  {| sys_executable := python3;
     child := fun _ => Exits [x4f; x4b] [] 0;
     sys_stdout := Some ascii_console |}.

(** The audit complains on stderr and exits 2, on an ASCII-only
    console. *)
Definition world_ascii_bad_arg : world :=
  {| sys_executable := python3;
     child := fun _ =>
       Exits [] [x65; x72; x72; x6f; x72; x3a; x20; x62; x61; x64; x20;
                 x61; x72; x67] 2;
     sys_stdout := Some ascii_console |}.

(** The interpreter binary is gone, on an ASCII-only console. *)
Definition world_ascii_gone : world :=
  {| sys_executable := python3;
     child := fun _ => Raises FileNotFoundError;
     sys_stdout := Some ascii_console |}.

End AuditTrace.

(* ------------------------------------------------------------------ *)
(** ** Facts about the decoder *)

Module Utf8Facts.
Import PyStr Utf8.

Lemma push_ok ch d t :
  push ch d = DecodeOk t -> exists t', d = DecodeOk t' /\ t = ch :: t'.
Proof.
  destruct d as [t'|a b r]; simpl; intros H; [|discriminate].
  injection H as <-. eauto.
Qed.

(** Under [Ignore] the loop never reports an error. *)
Lemma decode_loop_ignore_total s :
  forall pos skip, exists t, decode_loop Ignore pos skip s = DecodeOk t.
Proof.
  induction s as [|b s IH]; intros pos skip; cbn [decode_loop].
  - eauto.
  - destruct skip as [|k]; [|apply IH].
    destruct (utf8_step (b :: s)) as [ch n|r n]; [|apply IH].
    destruct (IH (S pos) (pred n)) as [t Ht]. rewrite Ht. simpl. eauto.
Qed.

(** Under [Replace] neither. *)
Lemma decode_loop_replace_total s :
  forall pos skip, exists t, decode_loop Replace pos skip s = DecodeOk t.
Proof.
  induction s as [|b s IH]; intros pos skip; cbn [decode_loop].
  - eauto.
  - destruct skip as [|k]; [|apply IH].
    destruct (utf8_step (b :: s)) as [ch n|r n];
      destruct (IH (S pos) (pred n)) as [t Ht]; rewrite Ht; simpl; eauto.
Qed.

(** What [Strict] accepts, [Ignore] decodes to the same text. *)
Lemma decode_loop_strict_ignore s :
  forall pos skip t,
    decode_loop Strict pos skip s = DecodeOk t ->
    decode_loop Ignore pos skip s = DecodeOk t.
Proof.
  induction s as [|b s IH]; intros pos skip t; cbn [decode_loop].
  - auto.
  - destruct skip as [|k]; [|apply IH].
    destruct (utf8_step (b :: s)) as [ch n|r n]; [|discriminate].
    intros H. apply push_ok in H. destruct H as (t' & H & ->).
    rewrite (IH _ _ _ H). reflexivity.
Qed.

(** A successful result does not depend on where the cursor started. *)
Lemma decode_loop_strict_pos s :
  forall pos pos' skip t,
    decode_loop Strict pos skip s = DecodeOk t ->
    decode_loop Strict pos' skip s = DecodeOk t.
Proof.
  induction s as [|b s IH]; intros pos pos' skip t; cbn [decode_loop].
  - auto.
  - destruct skip as [|k]; [|apply IH].
    destruct (utf8_step (b :: s)) as [ch n|r n]; [|discriminate].
    intros H. apply push_ok in H. destruct H as (t' & H & ->).
    rewrite (IH _ (S pos') _ _ H). reflexivity.
Qed.

(** Bytes covered by [skip] are passed over. *)
Lemma decode_loop_skip e l1 :
  forall l2 pos,
    decode_loop e pos (List.length l1) (l1 ++ l2)
    = decode_loop e (pos + List.length l1) 0 l2.
Proof.
  induction l1 as [|b l1 IH]; intros l2 pos.
  - simpl. rewrite Nat.add_0_r. destruct l2; reflexivity.
  - simpl List.length. rewrite <- app_comm_cons. cbn [decode_loop].
    rewrite IH. f_equal. lia.
Qed.

(** A decoded character depends only on the bytes it occupies. *)
Lemma utf8_step_local b s1 ch n :
  utf8_step (b :: s1) = Decoded ch n ->
  (1 <= n)%nat /\ (pred n <= List.length s1)%nat /\
  forall rest, utf8_step (b :: firstn (pred n) s1 ++ rest) = Decoded ch n.
Proof.
  unfold utf8_step. cbv zeta. intros H.
  destruct s1 as [|b2 [|b3 [|b4 s4]]];
    repeat match type of H with
           | context [if ?c then _ else _] => destruct c eqn:?
           end;
    try discriminate; injection H as <- <-;
    (split; [cbn; lia|]); (split; [cbn; lia|]);
    intros rest; cbn [firstn pred app];
    repeat match goal with
           | E : ?c = _ |- context [if ?c then _ else _] => rewrite E
           end; reflexivity.
Qed.

Lemma subseq_refl s : subseq s s.
Proof. induction s; constructor; auto. Qed.

Lemma subseq_app_keep l s' s : subseq s' s -> subseq (l ++ s') (l ++ s).
Proof. induction l; simpl; intros; [|constructor]; auto. Qed.

Lemma subseq_skipn k : forall s' s, subseq s' (skipn k s) -> subseq s' s.
Proof.
  induction k as [|k IH]; intros s' s; simpl; auto.
  destruct s as [|b s]; auto. intros H. constructor. auto.
Qed.

(** The text [Ignore] produces is the text [Strict] produces once the
    bytes of the malformed ranges are deleted from the input. *)
Lemma decode_loop_ignore_subseq s :
  forall pos skip t,
    decode_loop Ignore pos skip s = DecodeOk t ->
    exists s', subseq s' (skipn skip s) /\
               forall pos', decode_loop Strict pos' 0 s' = DecodeOk t.
Proof.
  induction s as [|b s IH]; intros pos skip t; cbn [decode_loop].
  - intros [= <-]. exists []. split.
    + destruct skip; constructor.
    + reflexivity.
  - destruct skip as [|k]; [|apply IH].
    destruct (utf8_step (b :: s)) as [ch n|r n] eqn:Hstep.
    + intros H. apply push_ok in H. destruct H as (t' & H & ->).
      destruct (IH _ _ _ H) as (s1 & Hsub & Hs1).
      destruct (utf8_step_local _ _ _ _ Hstep) as (Hn & Hlen & Hloc).
      exists (b :: firstn (pred n) s ++ s1). split.
      * simpl. constructor.
        rewrite <- (firstn_skipn (pred n) s) at 2.
        apply subseq_app_keep. exact Hsub.
      * intros pos'. cbn [decode_loop]. rewrite Hloc.
        replace (pred n) with (List.length (firstn (pred n) s)) at 1
          by (rewrite length_firstn; lia).
        rewrite decode_loop_skip. rewrite Hs1. reflexivity.
    + intros H. destruct (IH _ _ _ H) as (s1 & Hsub & Hs1).
      exists s1. split; [|exact Hs1].
      simpl. constructor. apply subseq_skipn with (k := pred n). exact Hsub.
Qed.

Lemma byte_val_to_byte v : 0 <= v < 256 -> byte_val (to_byte v) = v.
Proof.
  intros Hv. unfold byte_val, to_byte.
  destruct (Byte.of_N (Z.to_N v)) as [b|] eqn:Hb.
  - apply Byte.to_of_N in Hb. rewrite Hb. lia.
  - apply Byte.of_N_None_iff in Hb. lia.
Qed.

(** Boolean tests in the hypotheses, turned into (in)equalities. *)
Ltac bool_facts :=
  repeat match goal with
         | H : (_ && _)%bool = true |- _ =>
             apply andb_true_iff in H; destruct H
         | H : (_ && _)%bool = false |- _ =>
             apply andb_false_iff in H; destruct H
         | H : (_ || _)%bool = true |- _ =>
             apply orb_true_iff in H; destruct H
         | H : (_ || _)%bool = false |- _ =>
             apply orb_false_iff in H; destruct H
         | H : negb _ = true |- _ => apply negb_true_iff in H
         | H : negb _ = false |- _ => apply negb_false_iff in H
         | H : (_ <? _) = true |- _ => apply Z.ltb_lt in H
         | H : (_ <? _) = false |- _ => apply Z.ltb_ge in H
         | H : (_ <=? _) = true |- _ => apply Z.leb_le in H
         | H : (_ <=? _) = false |- _ => apply Z.leb_gt in H
         | H : (_ =? _) = true |- _ => apply Z.eqb_eq in H
         | H : (_ =? _) = false |- _ => apply Z.eqb_neq in H
         | H : (if ?b then _ else _) = _ |- _ => destruct b eqn:?
         end.

(** The step reads the encoding of a scalar value back, whatever
    follows it. *)
Lemma utf8_step_encode_char c rest :
  is_scalar c = true ->
  utf8_step (encode_char c ++ rest)
  = Decoded c (List.length (encode_char c)).
Proof.
  unfold is_scalar, encode_char. intros Hs.
  destruct (c <? 0x80) eqn:H1; [|destruct (c <? 0x800) eqn:H2;
                                  [|destruct (c <? 0x10000) eqn:H3]];
    bool_facts; try lia;
    unfold utf8_step, bad_second3, bad_second4, is_continuation;
    cbn [app List.length]; cbv zeta;
    rewrite !byte_val_to_byte by (Z.div_mod_to_equations; lia);
    rewrite ?Z.shiftl_mul_pow2 by lia;
    repeat match goal with
           | |- context [if ?b then _ else _] =>
               let E := fresh "E" in destruct b eqn:E
           end;
    bool_facts;
    try (exfalso; Z.div_mod_to_equations; lia);
    try (f_equal; Z.div_mod_to_equations; lia).
Qed.

Lemma encode_char_cons c : exists b bs, encode_char c = b :: bs.
Proof.
  unfold encode_char.
  destruct (c <? 0x80); [eauto|].
  destruct (c <? 0x800); [eauto|].
  destruct (c <? 0x10000); eauto.
Qed.

(** Well-formed input decodes to the text it encodes, under every
    policy. *)
Lemma decode_loop_encode e t :
  forallb is_scalar t = true ->
  forall pos, decode_loop e pos 0 (encode t) = DecodeOk t.
Proof.
  induction t as [|c t IH]; intros Ht pos.
  - reflexivity.
  - simpl in Ht. apply andb_true_iff in Ht. destruct Ht as [Hc Ht].
    pose proof (utf8_step_encode_char c (encode t) Hc) as Hstep.
    unfold encode. cbn [flat_map]. fold (encode t).
    destruct (encode_char_cons c) as (b & bs & Hbs).
    rewrite Hbs in *. rewrite <- app_comm_cons in *.
    cbn [decode_loop]. rewrite Hstep. cbn [List.length pred].
    rewrite decode_loop_skip, (IH Ht). reflexivity.
Qed.

(** The boundaries of the code space, and the forms the codec rejects. *)
Example decode_boundaries :
  decode Strict [x00; x7f; xc2; x80; xdf; xbf; xe0; xa0; x80; xed; x9f; xbf;
                 xee; x80; x80; xef; xbf; xbf; xf0; x90; x80; x80;
                 xf4; x8f; xbf; xbf]
  = DecodeOk [0x0; 0x7F; 0x80; 0x7FF; 0x800; 0xD7FF; 0xE000; 0xFFFF;
              0x10000; 0x10FFFF].
Proof. reflexivity. Qed.

Example decode_rejects :
  decode Strict [xc0; x80] = DecodeError 0 1 InvalidStartByte /\
  decode Strict [xe0; x9f; xbf] = DecodeError 0 1 InvalidContinuationByte /\
  decode Strict [xed; xa0; x80] = DecodeError 0 1 InvalidContinuationByte /\
  decode Strict [xf0; x8f; xbf; xbf]
  = DecodeError 0 1 InvalidContinuationByte /\
  decode Strict [xf4; x90; x80; x80]
  = DecodeError 0 1 InvalidContinuationByte /\
  decode Strict [xf5] = DecodeError 0 1 InvalidStartByte /\
  decode Strict [x41; xe2; x82] = DecodeError 1 3 UnexpectedEndOfData /\
  decode Strict [xf0; x9f; x98; x41]
  = DecodeError 0 3 InvalidContinuationByte.
Proof. repeat split. Qed.

Example decode_ignore_drops :
  decode Ignore [x48; xc3; xa9; xff; xe2; x82; xac; xed; xa0; x80; xf0; x9f]
  = DecodeOk [0x48; 0xE9; 0x20AC].
Proof. reflexivity. Qed.

Example decode_replace_marks :
  decode Replace [x48; xc3; xa9; xff; xe2; x82; xac; xed; xa0; x80; xf0; x9f]
  = DecodeOk [0x48; 0xE9; 0xFFFD; 0x20AC; 0xFFFD; 0xFFFD; 0xFFFD; 0xFFFD].
Proof. reflexivity. Qed.

End Utf8Facts.

(* ------------------------------------------------------------------ *)
(** ** Facts about text *)

Module PyStrFacts.
Import PyStr.

Lemma unlit_lit s : unlit (lit s) = s.
Proof.
  unfold unlit, lit. rewrite map_map.
  rewrite <- (string_of_list_ascii_of_string s) at 2. f_equal.
  rewrite <- (map_id (list_ascii_of_string s)) at 2.
  apply map_ext. intros a. rewrite N2Z.id. apply ascii_N_embedding.
Qed.

(** The rendering of an integer reads back as that integer: it is its
    decimal numeral. *)
Lemma int_of_str_of_int n : int_of_str (str_of_int n) = Some n.
Proof.
  unfold int_of_str, str_of_int. rewrite unlit_lit.
  rewrite NilZero.isi.
  - simpl. f_equal. apply DecimalZ.of_to.
  - destruct n; simpl; try discriminate.
    intros [= H]. revert H. apply DecimalPos.Unsigned.to_uint_nonnil.
  - destruct n; simpl; try discriminate.
    intros [= H]. revert H. apply DecimalPos.Unsigned.to_uint_nonnil.
Qed.

Lemma str_of_int_inj a b : str_of_int a = str_of_int b -> a = b.
Proof.
  intros H. apply (f_equal int_of_str) in H.
  rewrite !int_of_str_of_int in H. congruence.
Qed.

Lemma split_lines_nonempty t : split_lines t <> [].
Proof.
  destruct t as [|c t]; simpl; [discriminate|].
  destruct (c =? LF); [discriminate|].
  destruct (split_lines t); discriminate.
Qed.

(** The first line of a text is what precedes its first line feed. *)
Lemma split_lines_app a :
  forall b, ~ In LF a -> split_lines (a ++ LF :: b) = a :: split_lines b.
Proof.
  induction a as [|c a IH]; intros b Hnl.
  - reflexivity.
  - simpl. destruct (Z.eqb_spec c LF) as [->|_].
    + exfalso. apply Hnl. left. reflexivity.
    + rewrite IH; [reflexivity|]. intros Hin. apply Hnl. right. exact Hin.
Qed.

Lemma In_lit_LF s :
  forallb (fun a => negb (Ascii.eqb a "010"%char)) (list_ascii_of_string s)
  = true ->
  ~ In LF (lit s).
Proof.
  unfold lit. intros H Hin. apply in_map_iff in Hin.
  destruct Hin as (a & Ha & Hin).
  rewrite forallb_forall in H. specialize (H a Hin).
  assert (a = "010"%char) as ->.
  { rewrite <- (ascii_N_embedding a).
    replace (N_of_ascii a) with 10%N by (unfold LF in Ha; lia).
    reflexivity. }
  discriminate.
Qed.

End PyStrFacts.

(* ------------------------------------------------------------------ *)
(** ** Facts about the statements of [run] *)

Module RunFacts.
Import PyStr Py DebugAudit AuditSpec.

Lemma emit_emit a b m : emit b (emit a m) = emit (a ++ b) m.
Proof. unfold emit. simpl. rewrite app_assoc. reflexivity. Qed.

Lemma emit_nil m : emit [] m = m.
Proof. destruct m. unfold emit. simpl. rewrite app_nil_r. reflexivity. Qed.

Lemma print_accepted w t m :
  write w (log m) t = Written ->
  print w t m = (Return tt, emit [Printed t] m).
Proof.
  unfold print, write. destruct (sys_stdout w) as [file|]; [|discriminate].
  destruct (file (log m) t); [discriminate|reflexivity].
Qed.

Lemma print_refused w t m e :
  write w (log m) t = Refused e ->
  print w t m = (Raise e, m).
Proof.
  unfold print, write. destruct (sys_stdout w) as [file|]; [|discriminate].
  destruct (file (log m) t); [|discriminate]. intros [= ->]. reflexivity.
Qed.

Lemma print_dropped w t m :
  write w (log m) t = Dropped ->
  print w t m = (Return tt, m).
Proof.
  unfold print, write. destruct (sys_stdout w) as [file|]; [|reflexivity].
  destruct (file (log m) t); discriminate.
Qed.

(** Whether there is a standard output does not change during a run. *)
Lemma write_dropped_always w evs t evs' t' :
  write w evs t = Dropped -> write w evs' t' = Dropped.
Proof.
  unfold write. destruct (sys_stdout w) as [file|]; [|reflexivity].
  destruct (file evs t); discriminate.
Qed.

Lemma write_not_dropped w evs t evs' t' :
  write w evs t = Written -> write w evs' t' <> Dropped.
Proof.
  intros H H'. rewrite (write_dropped_always _ _ _ evs t H') in H.
  discriminate.
Qed.

(** Capturing under [errors='ignore'] always yields text and leaves the
    machine alone. *)
Lemma capture_ignore data m :
  capture Utf8.Ignore data m = (Return (captured data), m).
Proof.
  unfold capture, captured, Utf8.decode.
  destruct (Utf8Facts.decode_loop_ignore_total data 0 0) as [t ->].
  reflexivity.
Qed.

Lemma subprocess_run_exits w argv out err code m :
  child w argv = Exits out err code ->
  subprocess_run w argv Utf8.Ignore m
  = (Return {| args := argv; returncode := code;
               stdout := captured out; stderr := captured err |},
     emit [Launched argv] m).
Proof.
  unfold subprocess_run. intros ->. unfold bind.
  rewrite !capture_ignore. reflexivity.
Qed.

Lemma subprocess_run_fails w argv errors e m :
  child w argv = Raises e ->
  subprocess_run w argv errors m = (Raise e, emit [Launched argv] m).
Proof. unfold subprocess_run. intros ->. reflexivity. Qed.

Lemma guarded_exits w out err code m :
  console_ok w ->
  child w (invocation w) = Exits out err code ->
  guarded w m
  = (Return tt, emit (report w (captured out) (captured err) code) m).
Proof.
  intros Hok Hch. unfold guarded, bind.
  rewrite (subprocess_run_exits _ _ _ _ _ _ Hch).
  cbn [stdout stderr returncode].
  repeat (rewrite print_accepted by apply Hok; rewrite emit_emit).
  reflexivity.
Qed.

Lemma guarded_fails w e m :
  child w (invocation w) = Raises e ->
  guarded w m = (Raise e, emit [Launched (invocation w)] m).
Proof.
  intros Hch. unfold guarded, bind.
  rewrite (subprocess_run_fails _ _ _ _ _ Hch). reflexivity.
Qed.

(** [run] once the banner is out. *)
Lemma run_after_banner w m :
  write w (log m) BANNER = Written ->
  run w m
  = try_except_Exception (guarded w) (handler w) (emit [Printed BANNER] m).
Proof.
  intros H. unfold run, bind. rewrite (print_accepted _ _ _ H). reflexivity.
Qed.

Lemma run_banner_refused w m e :
  write w (log m) BANNER = Refused e ->
  run w m = (Raise e, m).
Proof.
  intros H. unfold run, bind. rewrite (print_refused _ _ _ _ H). reflexivity.
Qed.

(** Without a standard output the run is the launch alone: every print
    is passed over, the handler's included. *)
Lemma run_banner_dropped w m :
  write w (log m) BANNER = Dropped ->
  run w m
  = (match child w (invocation w) with
     | Exits _ _ _ => Return tt
     | Raises e => if is_Exception e then Return tt else Raise e
     end,
     emit [Launched (invocation w)] m).
Proof.
  intros H.
  assert (Hprint : forall t m', print w t m' = (Return tt, m')).
  { intros t m'. apply print_dropped.
    apply (write_dropped_always _ _ _ _ _ H). }
  unfold run, bind. rewrite Hprint. unfold try_except_Exception.
  destruct (child w (invocation w)) as [out err code|e] eqn:Hch.
  - unfold guarded, bind.
    rewrite (subprocess_run_exits _ _ _ _ _ _ Hch).
    rewrite !Hprint. reflexivity.
  - rewrite (guarded_fails _ _ _ Hch).
    destruct (is_Exception e); [|reflexivity].
    unfold handler. apply Hprint.
Qed.

End RunFacts.

(* ------------------------------------------------------------------ *)
(** ** The shape of every run *)

Module RunShape.
Import PyStr Py DebugAudit AuditSpec RunFacts.

Lemma prints_only_print w t : prints_only (print w t).
Proof.
  intros m. destruct (write w (log m) t) as [| |e] eqn:Hw.
  - exists (Return tt), [Printed t]. rewrite (print_accepted _ _ _ Hw). auto.
  - exists (Return tt), []. rewrite (print_dropped _ _ _ Hw), emit_nil. auto.
  - exists (Raise e), []. rewrite (print_refused _ _ _ _ Hw), emit_nil. auto.
Qed.

Lemma prints_only_bind {A B} (c : M A) (k : A -> M B) :
  prints_only c -> (forall a, prints_only (k a)) -> prints_only (bind c k).
Proof.
  intros Hc Hk m. unfold bind.
  destruct (Hc m) as (r & evs & -> & Hp).
  destruct r as [a|e].
  - destruct (Hk a (emit evs m)) as (r' & evs' & -> & Hp').
    exists r', (evs ++ evs'). rewrite emit_emit, forallb_app, Hp, Hp'. auto.
  - exists (Raise e), evs. auto.
Qed.

Lemma prints_only_handler w e : prints_only (handler w e).
Proof. apply prints_only_print. Qed.

(** The report after the launch. *)
Lemma prints_only_report w (result : CompletedProcess) :
  prints_only
    (bind (print w (lit "STDOUT:")) (fun _ =>
     bind (print w (stdout result)) (fun _ =>
     bind (print w (lit "STDERR:")) (fun _ =>
     bind (print w (stderr result)) (fun _ =>
     print w (lit "EXIT CODE: " ++ str_of_int (returncode result))))))).
Proof.
  repeat (apply prints_only_bind; [apply prints_only_print|intros _]).
  apply prints_only_print.
Qed.

(** The guarded block asks for the child once, first thing, and then
    only prints. *)
Lemma guarded_shape w m :
  exists r prints,
    guarded w m = (r, emit (Launched (invocation w) :: prints) m) /\
    forallb is_print prints = true.
Proof.
  unfold guarded. unfold bind at 1.
  destruct (child w (invocation w)) as [out err code|e] eqn:Hch.
  - rewrite (subprocess_run_exits _ _ _ _ _ _ Hch).
    destruct (prints_only_report w
                {| args := invocation w; returncode := code;
                   stdout := captured out; stderr := captured err |}
                (emit [Launched (invocation w)] m))
      as (r & evs & -> & Hp).
    exists r, evs. rewrite emit_emit. auto.
  - rewrite (subprocess_run_fails _ _ _ _ _ Hch).
    exists (Raise e), []. auto.
Qed.

Lemma try_shape w m :
  exists r prints,
    try_except_Exception (guarded w) (handler w) m
    = (r, emit (Launched (invocation w) :: prints) m) /\
    forallb is_print prints = true.
Proof.
  unfold try_except_Exception.
  destruct (guarded_shape w m) as (r & prints & -> & Hp).
  destruct r as [a|e]; [eauto|].
  destruct (is_Exception e); [|eauto].
  destruct (prints_only_handler
              w e (emit (Launched (invocation w) :: prints) m))
    as (r' & evs & -> & Hp').
  exists r', (prints ++ evs).
  rewrite emit_emit, forallb_app, Hp, Hp'. auto.
Qed.

(** Every run: nothing at all when the banner is refused; the banner,
    then one launch, then prints when it is taken; the launch alone when
    there is no standard output. *)
Lemma run_shape w m :
  (exists e, write w (log m) BANNER = Refused e /\
             run w m = (Raise e, m)) \/
  (write w (log m) BANNER = Written /\
   exists r prints,
     run w m
     = (r, emit (Printed BANNER :: Launched (invocation w) :: prints) m) /\
     forallb is_print prints = true) \/
  (write w (log m) BANNER = Dropped /\
   exists r, run w m = (r, emit [Launched (invocation w)] m)).
Proof.
  destruct (write w (log m) BANNER) as [| |e] eqn:Hb.
  - right. left. split; [reflexivity|]. rewrite (run_after_banner _ _ Hb).
    destruct (try_shape w (emit [Printed BANNER] m)) as (r & prints & -> & Hp).
    exists r, prints. rewrite emit_emit. auto.
  - right. right. split; [reflexivity|].
    rewrite (run_banner_dropped _ _ Hb). eauto.
  - left. exists e. split; [reflexivity|]. apply run_banner_refused, Hb.
Qed.

Lemma events_of_emit w m r evs :
  run w m = (r, emit evs m) -> events_of w m = evs.
Proof.
  unfold events_of. intros ->. simpl.
  rewrite skipn_app, skipn_all, Nat.sub_diag. reflexivity.
Qed.

Lemma launches_prints evs : forallb is_print evs = true -> launches evs = [].
Proof.
  induction evs as [|[t|argv] evs IH]; simpl; auto. discriminate.
Qed.

End RunShape.

(* ------------------------------------------------------------------ *)
(** ** The three ways a run with a working console can go *)

Module RunCases.
Import PyStr Py DebugAudit AuditSpec RunFacts.

Lemma run_exits w m out err code :
  console_ok w ->
  child w (invocation w) = Exits out err code ->
  run w m
  = (Return tt,
     emit (Printed BANNER :: report w (captured out) (captured err) code) m).
Proof.
  intros Hok Hch. rewrite (run_after_banner _ _ (Hok _ _)).
  unfold try_except_Exception.
  rewrite (guarded_exits _ _ _ _ _ Hok Hch), emit_emit. reflexivity.
Qed.



(** The printed text of the success path. *)
Lemma console_text_report w o e code :
  console_text (Printed BANNER :: report w o e code)
  = lit "Starting Audit..." ++ [LF]
    ++ lit "STDOUT:" ++ [LF] ++ o ++ [LF]
    ++ lit "STDERR:" ++ [LF] ++ e ++ [LF]
    ++ lit "EXIT CODE: " ++ str_of_int code ++ [LF].
Proof.
  unfold report. cbn [console_text]. unfold BANNER.
  repeat rewrite <- app_assoc. reflexivity.
Qed.

End RunCases.

(* ------------------------------------------------------------------ *)
(** ** More about text: lines and numerals *)

Module LineFacts.
Import PyStr.

(** Splitting distributes over a line feed. *)
Lemma split_lines_LF a :
  forall b, split_lines (a ++ LF :: b) = split_lines a ++ split_lines b.
Proof.
  induction a as [|c a IH]; intros b.
  - reflexivity.
  - cbn [app split_lines]. rewrite IH.
    destruct (c =? LF); [reflexivity|].
    destruct (split_lines a) as [|l ls] eqn:Hl.
    + exfalso. exact (PyStrFacts.split_lines_nonempty a Hl).
    + reflexivity.
Qed.

Lemma split_lines_one t : ~ In LF t -> split_lines t = [t].
Proof.
  induction t as [|c t IH]; intros Hnl.
  - reflexivity.
  - cbn [split_lines]. destruct (Z.eqb_spec c LF) as [->|_].
    + exfalso. apply Hnl. left. reflexivity.
    + rewrite IH; [reflexivity|]. intros Hin. apply Hnl. right. exact Hin.
Qed.

Lemma uint_no_LF d :
  forallb (fun a => negb (Ascii.eqb a "010"%char))
          (list_ascii_of_string (NilEmpty.string_of_uint d)) = true.
Proof. induction d; simpl; auto. Qed.

(** A decimal numeral holds no line feed. *)
Lemma str_of_int_no_LF n : ~ In LF (str_of_int n).
Proof.
  unfold str_of_int. apply PyStrFacts.In_lit_LF.
  unfold NilZero.string_of_int, NilZero.string_of_uint.
  destruct (Z.to_int n) as [d|d]; destruct d; simpl; auto using uint_no_LF.
Qed.

Lemma startswith_app p t : startswith p (p ++ t) = true.
Proof.
  induction p as [|c p IH]; simpl; [reflexivity|].
  rewrite Z.eqb_refl. exact IH.
Qed.

End LineFacts.

(* ------------------------------------------------------------------ *)
(** ** Sequences of prints *)

Module TraceFacts.
Import PyStr Py DebugAudit AuditSpec AuditTrace RunFacts.

Lemma log_emit evs m : log (emit evs m) = log m ++ evs.
Proof. reflexivity. Qed.

(** The console takes all of them: all are printed. *)
Lemma print_seq_all w ts :
  forall m,
    takes w (log m) ts = true ->
    print_seq w ts m = (Return tt, emit (map Printed ts) m).
Proof.
  induction ts as [|t ts IH]; intros m; cbn [takes print_seq map].
  - intros _. unfold ret. rewrite emit_nil. reflexivity.
  - destruct (write w (log m) t) eqn:Ht; try discriminate.
    intros Hts. unfold bind. rewrite (print_accepted _ _ _ Ht).
    rewrite (IH (emit [Printed t] m) Hts), emit_emit. reflexivity.
Qed.

(** The console refuses the text number [k]: the ones before it are
    printed and the error is raised from there. *)
Lemma print_seq_stops w ts :
  forall m k e,
    (k < List.length ts)%nat ->
    takes w (log m) (firstn k ts) = true ->
    write w (log m ++ map Printed (firstn k ts)) (nth k ts [])
    = Refused e ->
    print_seq w ts m = (Raise e, emit (map Printed (firstn k ts)) m).
Proof.
  induction ts as [|t ts IH]; intros m k e Hk; [simpl in Hk; lia|].
  destruct k as [|k]; cbn [firstn takes map nth print_seq].
  - intros _. rewrite app_nil_r. intros Ht. unfold bind.
    rewrite (print_refused _ _ _ _ Ht), emit_nil. reflexivity.
  - destruct (write w (log m) t) eqn:Ht; try discriminate.
    intros Hts He. unfold bind. rewrite (print_accepted _ _ _ Ht).
    rewrite (IH (emit [Printed t] m) k e).
    + rewrite emit_emit. reflexivity.
    + simpl in Hk. lia.
    + exact Hts.
    + rewrite log_emit, <- app_assoc. exact He.
Qed.

(** One or the other, when there is a standard output. *)
Lemma print_seq_cases w ts m :
  (forall evs t, write w evs t <> Dropped) ->
  takes w (log m) ts = true \/
  exists k e,
    (k < List.length ts)%nat /\
    takes w (log m) (firstn k ts) = true /\
    write w (log m ++ map Printed (firstn k ts)) (nth k ts [])
    = Refused e.
Proof.
  intros Hout. revert m. induction ts as [|t ts IH]; intros m; cbn [takes].
  - left. reflexivity.
  - destruct (write w (log m) t) as [| |e] eqn:Ht.
    + destruct (IH (emit [Printed t] m)) as [Hall|(k & e & Hk & Hts & He)].
      * left. exact Hall.
      * right. exists (S k), e. cbn [firstn takes map nth List.length].
        rewrite Ht. rewrite log_emit, <- app_assoc in He.
        repeat split; [lia|exact Hts|exact He].
    + exfalso. exact (Hout _ _ Ht).
    + right. exists 0%nat, e. cbn [firstn takes map nth List.length].
      rewrite app_nil_r. repeat split; [lia|exact Ht].
Qed.

(** Whatever a sequence of prints raises was raised by the console. *)
Lemma print_seq_raise w ts :
  forall m e m',
    print_seq w ts m = (Raise e, m') ->
    exists evs t, In t ts /\ write w evs t = Refused e.
Proof.
  induction ts as [|t ts IH]; intros m e m'; cbn [print_seq].
  - discriminate.
  - unfold bind. destruct (write w (log m) t) as [| |e0] eqn:Ht.
    + rewrite (print_accepted _ _ _ Ht). intros H.
      destruct (IH _ _ _ H) as (evs & t' & Hin & Hw).
      exists evs, t'. split; [right; exact Hin|exact Hw].
    + rewrite (print_dropped _ _ _ Ht). intros H.
      destruct (IH _ _ _ H) as (evs & t' & Hin & Hw).
      exists evs, t'. split; [right; exact Hin|exact Hw].
    + rewrite (print_refused _ _ _ _ Ht). intros [= <- _].
      exists (log m), t. split; [left; reflexivity|exact Ht].
Qed.

(** The guarded block of a child that exits is the launch and then the
    five prints of the report. *)
Lemma guarded_print_seq w m out err code :
  child w (invocation w) = Exits out err code ->
  guarded w m
  = print_seq w (report_texts (captured out) (captured err) code)
              (emit [Launched (invocation w)] m).
Proof.
  intros Hch. unfold guarded. unfold bind at 1.
  rewrite (subprocess_run_exits _ _ _ _ _ _ Hch).
  cbn [stdout stderr returncode report_texts print_seq].
  unfold bind.
  repeat match goal with
         | |- context [print w ?t ?m] =>
             destruct (print w t m) as [[[]|?] ?]; try reflexivity
         end.
Qed.

End TraceFacts.

(* ------------------------------------------------------------------ *)
(** ** Runs whose writes the console takes *)

Module RunTaken.
Import PyStr Py DebugAudit AuditSpec AuditTrace RunFacts TraceFacts.

Lemma run_exits_taken w m out err code :
  write w (log m) BANNER = Written ->
  child w (invocation w) = Exits out err code ->
  takes w (log m ++ [Printed BANNER; Launched (invocation w)])
        (report_texts (captured out) (captured err) code) = true ->
  run w m
  = (Return tt,
     emit (Printed BANNER :: report w (captured out) (captured err) code) m).
Proof.
  intros Hb Hch Htakes. rewrite (run_after_banner _ _ Hb).
  unfold try_except_Exception.
  rewrite (guarded_print_seq _ _ _ _ _ Hch).
  rewrite print_seq_all.
  - rewrite !emit_emit. reflexivity.
  - rewrite emit_emit, log_emit. exact Htakes.
Qed.

Lemma run_raises_taken w m e :
  write w (log m) BANNER = Written ->
  child w (invocation w) = Raises e ->
  is_Exception e = true ->
  write w (log m ++ [Printed BANNER; Launched (invocation w)])
        (lit "FAILED: " ++ exc_str e) = Written ->
  run w m
  = (Return tt,
     emit [Printed BANNER; Launched (invocation w);
           Printed (lit "FAILED: " ++ exc_str e)] m).
Proof.
  intros Hb Hch Hexc Hfailed. rewrite (run_after_banner _ _ Hb).
  unfold try_except_Exception.
  rewrite (guarded_fails _ _ _ Hch), Hexc. unfold handler.
  rewrite print_accepted.
  - rewrite !emit_emit. reflexivity.
  - rewrite emit_emit, log_emit. exact Hfailed.
Qed.

(** A console that takes everything takes the writes of any run. *)
Lemma console_ok_takes w evs ts : console_ok w -> takes w evs ts = true.
Proof.
  intros Hok. revert evs. induction ts as [|t ts IH]; intros evs; simpl.
  - reflexivity.
  - rewrite (Hok evs t). apply IH.
Qed.

End RunTaken.

(* ------------------------------------------------------------------ *)
(** ** The contract of [run] *)

Import PyStr Py DebugAudit AuditSpec AuditTrace.

(** C1, as the source has it.  When the child is launched and
    completes with exit code [E], leaving the captured texts [O]
    (stdout) and [Err] (stderr), and the console takes the six writes of
    the run (the banner and the five texts of the report, one after the
    other), [run] returns after printing, in this order, the banner,
    "STDOUT:", [O], "STDERR:", [Err] and "EXIT CODE: " followed by [E];
    the rendering of [E] is its decimal numeral (it reads back as [E]). *)
Theorem run_reports_completed_child
        (w : world) (m : machine) (out err : list byte) (E : Z) :
  write w (log m) BANNER = Written ->
  child w (invocation w) = Exits out err E ->
  takes w (log m ++ [Printed BANNER; Launched (invocation w)])
        (report_texts (captured out) (captured err) E) = true ->
  run w m
  = (Return tt,
     emit [Printed BANNER;
           Launched (invocation w);
           Printed (lit "STDOUT:");
           Printed (captured out);
           Printed (lit "STDERR:");
           Printed (captured err);
           Printed (lit "EXIT CODE: " ++ str_of_int E)] m)
  /\ printed_by w m
     = lit "Starting Audit..." ++ [LF]
       ++ lit "STDOUT:" ++ [LF]
       ++ captured out ++ [LF]
       ++ lit "STDERR:" ++ [LF]
       ++ captured err ++ [LF]
       ++ lit "EXIT CODE: " ++ str_of_int E ++ [LF]
  /\ int_of_str (str_of_int E) = Some E.
Proof.
  intros Hb Hch Htakes.
  pose proof (RunTaken.run_exits_taken w m out err E Hb Hch Htakes) as Hrun.
  split; [exact Hrun|]. split.
  - unfold printed_by. rewrite (RunShape.events_of_emit _ _ _ _ Hrun).
    apply RunCases.console_text_report.
  - apply PyStrFacts.int_of_str_of_int.
Qed.

Lemma run_reports_completed_child_witness :
  write world_ascii_bad_arg (log boot) BANNER = Written /\
  child world_ascii_bad_arg (invocation world_ascii_bad_arg)
  = Exits [] [x65; x72; x72; x6f; x72; x3a; x20; x62; x61; x64; x20;
              x61; x72; x67] 2 /\
  takes world_ascii_bad_arg
        (log boot ++ [Printed BANNER;
                      Launched (invocation world_ascii_bad_arg)])
        (report_texts (captured [])
                      (captured [x65; x72; x72; x6f; x72; x3a; x20; x62;
                                 x61; x64; x20; x61; x72; x67]) 2)
  = true /\
  printed_by world_ascii_bad_arg boot
  = lit "Starting Audit..." ++ [LF]
    ++ lit "STDOUT:" ++ [LF]
    ++ [] ++ [LF]
    ++ lit "STDERR:" ++ [LF]
    ++ lit "error: bad arg" ++ [LF]
    ++ lit "EXIT CODE: 2" ++ [LF].
Proof.
  split; [reflexivity|]. split; [reflexivity|]. split; [reflexivity|].
  exact (proj1 (proj2 (run_reports_completed_child
                         world_ascii_bad_arg boot _ _ _
                         eq_refl eq_refl eq_refl))).
Defined.

(** C1 as stated fails: the child is launched and completes (exit code
    3, "caf" and an e-acute on stdout, nothing on stderr), the ASCII console
    refuses the captured stdout, and the run prints the banner,
    "STDOUT:" and a "FAILED: " line: no captured text, no "STDERR:", no
    "EXIT CODE: 3". *)
Lemma completed_child_without_report :
  child world_ascii_cafe (invocation world_ascii_cafe)
  = Exits [x63; x61; x66; xc3; xa9; x0a] [] 3 /\
  captured [x63; x61; x66; xc3; xa9; x0a] = lit "caf" ++ [0xE9; LF] /\
  events_of world_ascii_cafe boot
  = [Printed BANNER;
     Launched (invocation world_ascii_cafe);
     Printed (lit "STDOUT:");
     Printed (lit "FAILED: 'ascii' codec can't encode character '\xe9' in position 3: ordinal not in range(128)")]
  /\
  printed_by world_ascii_cafe boot
  = lit "Starting Audit..." ++ [LF]
    ++ lit "STDOUT:" ++ [LF]
    ++ lit "FAILED: 'ascii' codec can't encode character '\xe9' in position 3: ordinal not in range(128)"
    ++ [LF].
Proof. repeat split. Qed.

(** C2, as the source has it.  When launching the child raises an error
    of the ordinary exception class and the console takes the two writes
    of the run (the banner and the "FAILED: " line), [run] prints the
    banner and then one line, "FAILED: " followed by the error's message,
    and returns; no print of the run is an "EXIT CODE:" line, and when the
    message is a single line the printed text consists of exactly the
    banner line and the "FAILED: " line. *)
Theorem run_reports_launch_failure
        (w : world) (m : machine) (e : exc) :
  write w (log m) BANNER = Written ->
  child w (invocation w) = Raises e ->
  is_Exception e = true ->
  write w (log m ++ [Printed BANNER; Launched (invocation w)])
        (lit "FAILED: " ++ exc_str e) = Written ->
  run w m
  = (Return tt,
     emit [Printed BANNER;
           Launched (invocation w);
           Printed (lit "FAILED: " ++ exc_str e)] m)
  /\ printed_by w m
     = lit "Starting Audit..." ++ [LF] ++ lit "FAILED: " ++ exc_str e ++ [LF]
  /\ existsb is_exit_code_line (events_of w m) = false
  /\ (~ In LF (exc_str e) ->
      split_lines (printed_by w m)
      = [lit "Starting Audit..."; lit "FAILED: " ++ exc_str e; []]
      /\ forallb (fun l => negb (startswith (lit "EXIT CODE:") l))
                 (split_lines (printed_by w m)) = true).
Proof.
  intros Hb Hch Hexc Hfailed.
  pose proof (RunTaken.run_raises_taken w m e Hb Hch Hexc Hfailed) as Hrun.
  assert (Htext : printed_by w m
                  = lit "Starting Audit..." ++ [LF]
                    ++ lit "FAILED: " ++ exc_str e ++ [LF]).
  { unfold printed_by. rewrite (RunShape.events_of_emit _ _ _ _ Hrun).
    cbn [console_text]. unfold BANNER.
    repeat rewrite <- app_assoc. reflexivity. }
  split; [exact Hrun|]. split; [exact Htext|]. split.
  - rewrite (RunShape.events_of_emit _ _ _ _ Hrun). reflexivity.
  - intros Hnl.
    assert (Hlines : split_lines (printed_by w m)
                     = [lit "Starting Audit...";
                        lit "FAILED: " ++ exc_str e; []]).
    { rewrite Htext.
      change ([LF] ++ lit "FAILED: " ++ exc_str e ++ [LF])
        with (LF :: (lit "FAILED: " ++ exc_str e) ++ [LF]).
      rewrite PyStrFacts.split_lines_app
        by (apply PyStrFacts.In_lit_LF; reflexivity).
      change ((lit "FAILED: " ++ exc_str e) ++ [LF])
        with ((lit "FAILED: " ++ exc_str e) ++ LF :: []).
      rewrite PyStrFacts.split_lines_app; [reflexivity|].
      intros Hin. apply in_app_or in Hin. destruct Hin as [Hin|Hin].
      - revert Hin. apply PyStrFacts.In_lit_LF. reflexivity.
      - exact (Hnl Hin). }
    split; [exact Hlines|]. rewrite Hlines. reflexivity.
Qed.

Lemma run_reports_launch_failure_witness :
  write world_ascii_gone (log boot) BANNER = Written /\
  child world_ascii_gone (invocation world_ascii_gone)
  = Raises FileNotFoundError /\
  is_Exception FileNotFoundError = true /\
  write world_ascii_gone
        (log boot ++ [Printed BANNER; Launched (invocation world_ascii_gone)])
        (lit "FAILED: " ++ exc_str FileNotFoundError) = Written /\
  printed_by world_ascii_gone boot
  = lit "Starting Audit..." ++ [LF]
    ++ lit "FAILED: [Errno 2] No such file or directory: '/usr/bin/python3'"
    ++ [LF].
Proof.
  split; [reflexivity|]. split; [reflexivity|]. split; [reflexivity|].
  split; [reflexivity|].
  exact (proj1 (proj2 (run_reports_launch_failure
                         world_ascii_gone boot FileNotFoundError
                         eq_refl eq_refl eq_refl eq_refl))).
Defined.

(** C2 as stated fails.  Launching raises a [FileNotFoundError] whose
    message names a path with an o-umlaut; the ASCII console takes the
    banner and refuses the "FAILED: " line, so the banner line is all the
    output and [run] raises the console's error.  And when what the
    launch raises is outside the ordinary class (Ctrl-C), a working
    console shows the banner line and no "FAILED: " line either. *)
Lemma launch_failure_without_failed_line :
  (child world_ascii_missing (invocation world_ascii_missing)
   = Raises umlaut_missing /\
   is_Exception umlaut_missing = true /\
   printed_by world_ascii_missing boot = lit "Starting Audit..." ++ [LF] /\
   fst (run world_ascii_missing boot)
   = Raise {| exc_class_of := ExceptionSub "UnicodeEncodeError";
              exc_str := lit "'ascii' codec can't encode character '\xf6' in position 55: ordinal not in range(128)" |})
  /\
  (child world_interrupted (invocation world_interrupted)
   = Raises interrupt /\
   console_ok world_interrupted /\
   printed_by world_interrupted boot = lit "Starting Audit..." ++ [LF] /\
   fst (run world_interrupted boot) = Raise interrupt).
Proof.
  split; [repeat split|].
  split; [reflexivity|]. split; [intros evs t; reflexivity|].
  split; reflexivity.
Qed.




(** C4, as the source has it.  Whatever the exit code [E] of the
    child, zero or not, a run whose six writes the console takes is
    exactly the banner followed by the guarded block run to its end: the
    handler is not entered, nothing is raised, and the last thing printed
    is "EXIT CODE: " followed by the decimal numeral of [E], which reads
    back as [E] (two exit codes print alike only when equal). *)
Theorem run_exit_code_is_data
        (w : world) (m : machine) (out err : list byte) (E : Z) :
  write w (log m) BANNER = Written ->
  child w (invocation w) = Exits out err E ->
  takes w (log m ++ [Printed BANNER; Launched (invocation w)])
        (report_texts (captured out) (captured err) E) = true ->
  run w m = bind (print w BANNER) (fun _ => guarded w) m
  /\ fst (run w m) = Return tt
  /\ events_of w m
     = [Printed BANNER; Launched (invocation w);
        Printed (lit "STDOUT:"); Printed (captured out);
        Printed (lit "STDERR:"); Printed (captured err)]
       ++ [Printed (lit "EXIT CODE: " ++ str_of_int E)]
  /\ int_of_str (str_of_int E) = Some E
  /\ (forall E', str_of_int E' = str_of_int E -> E' = E).
Proof.
  intros Hb Hch Htakes.
  pose proof (RunTaken.run_exits_taken w m out err E Hb Hch Htakes) as Hrun.
  split.
  { rewrite Hrun. unfold bind.
    rewrite (RunFacts.print_accepted _ _ _ Hb).
    rewrite (TraceFacts.guarded_print_seq _ _ _ _ _ Hch).
    rewrite TraceFacts.print_seq_all.
    - rewrite !RunFacts.emit_emit. reflexivity.
    - rewrite RunFacts.emit_emit, TraceFacts.log_emit. exact Htakes. }
  split; [rewrite Hrun; reflexivity|]. split.
  { rewrite (RunShape.events_of_emit _ _ _ _ Hrun). reflexivity. }
  split; [apply PyStrFacts.int_of_str_of_int|].
  intros E'. apply PyStrFacts.str_of_int_inj.
Qed.

Lemma run_exit_code_is_data_witness :
  write world_garbled (log boot) BANNER = Written /\
  child world_garbled (invocation world_garbled)
  = Exits [xff; x4f; x4b; x0d; x0a; xe2; x82] [xc3] (-9) /\
  fst (run world_garbled boot) = Return tt /\
  last (events_of world_garbled boot) (Printed [])
  = Printed (lit "EXIT CODE: -9").
Proof.
  split; [reflexivity|]. split; [reflexivity|].
  split.
  - exact (proj1 (proj2 (run_exit_code_is_data
                           world_garbled boot _ _ _
                           eq_refl eq_refl eq_refl))).
  - reflexivity.
Defined.

(** C4 as stated fails: the child exits with the non-zero code 3, the
    ASCII console refuses its captured stdout, and the run goes through
    the handler: its last print is a "FAILED: " line, no print is an
    "EXIT CODE:" line, and the run is not the banner followed by the
    guarded block. *)
Lemma nonzero_exit_on_failed_path :
  child world_ascii_cafe (invocation world_ascii_cafe)
  = Exits [x63; x61; x66; xc3; xa9; x0a] [] 3 /\
  fst (run world_ascii_cafe boot) = Return tt /\
  last (events_of world_ascii_cafe boot) (Printed [])
  = Printed (lit "FAILED: 'ascii' codec can't encode character '\xe9' in position 3: ordinal not in range(128)")
  /\
  existsb is_exit_code_line (events_of world_ascii_cafe boot) = false /\
  run world_ascii_cafe boot
  <> bind (print world_ascii_cafe BANNER)
          (fun _ => guarded world_ascii_cafe) boot.
Proof.
  split; [reflexivity|]. split; [reflexivity|]. split; [reflexivity|].
  split; [reflexivity|]. discriminate.
Qed.

(** [errors='strict'] is what would make the capture fail: a stray FF
    byte raises [UnicodeDecodeError], and [subprocess.run] with it. *)
Example capture_strict_fails :
  capture Utf8.Strict [x4f; x4b; xff] boot
  = (Raise {| exc_class_of := ExceptionSub "UnicodeDecodeError";
              exc_str := lit "'utf-8' codec can't decode byte 0xff in position 2: invalid start byte" |},
     boot).
Proof. reflexivity. Qed.

Example subprocess_run_strict_fails :
  fst (subprocess_run world_garbled (invocation world_garbled)
                      Utf8.Strict boot)
  = Raise {| exc_class_of := ExceptionSub "UnicodeDecodeError";
             exc_str := lit "'utf-8' codec can't decode byte 0xff in position 0: invalid start byte" |}.
Proof. reflexivity. Qed.

(** C5.  Whatever bytes the child leaves on its two pipes, valid UTF-8
    or not, the capture-and-decode step of [run] does not fail: the
    guarded block gets past [subprocess.run] and is the launch followed
    by the five prints of the report on the captured texts, so that
    whatever the block raises was raised by the console; and each
    captured text is what the strict decoder gives for the pipe's bytes
    with some bytes deleted (the malformed ranges are dropped), nothing
    being dropped from bytes the strict decoder accepts. *)
Theorem capture_never_fails
        (w : world) (m : machine) (out err : list byte) (E : Z) :
  child w (invocation w) = Exits out err E ->
  guarded w m
  = print_seq w (report_texts (captured out) (captured err) E)
              (emit [Launched (invocation w)] m)
  /\ (forall e m',
        guarded w m = (Raise e, m') ->
        exists evs t,
          In t (report_texts (captured out) (captured err) E) /\
          write w evs t = Refused e)
  /\ (forall data,
        In data [out; err] ->
        exists kept t,
          Utf8.subseq kept data /\
          Utf8.decode Utf8.Strict kept = Utf8.DecodeOk t /\
          Utf8.decode Utf8.Ignore data = Utf8.DecodeOk t /\
          captured data = Utf8.translate_newlines t)
  /\ (forall data t,
        In data [out; err] ->
        Utf8.decode Utf8.Strict data = Utf8.DecodeOk t ->
        captured data = Utf8.translate_newlines t).
Proof.
  intros Hch.
  pose proof (TraceFacts.guarded_print_seq w m _ _ _ Hch) as Hg.
  split; [exact Hg|]. split; [|split].
  - intros e m' Hraise. rewrite Hg in Hraise.
    apply (TraceFacts.print_seq_raise _ _ _ _ _ Hraise).
  - intros data _.
    destruct (Utf8Facts.decode_loop_ignore_total data 0 0) as [t Ht].
    destruct (Utf8Facts.decode_loop_ignore_subseq data 0 0 t Ht)
      as (kept & Hsub & Hstrict).
    exists kept, t. split; [exact Hsub|]. split; [apply Hstrict|].
    split; [exact Ht|]. unfold captured, Utf8.decode. rewrite Ht. reflexivity.
  - intros data t _ Ht. unfold captured, Utf8.decode in *.
    rewrite (Utf8Facts.decode_loop_strict_ignore _ _ _ _ Ht). reflexivity.
Qed.

Lemma capture_never_fails_witness :
  child world_garbled (invocation world_garbled)
  = Exits [xff; x4f; x4b; x0d; x0a; xe2; x82] [xc3] (-9) /\
  Utf8.decode Utf8.Strict [xff; x4f; x4b; x0d; x0a; xe2; x82]
  = Utf8.DecodeError 0 1 Utf8.InvalidStartByte /\
  guarded world_garbled boot
  = (Return tt,
     emit [Launched (invocation world_garbled);
           Printed (lit "STDOUT:"); Printed (lit "OK" ++ [LF]);
           Printed (lit "STDERR:"); Printed [];
           Printed (lit "EXIT CODE: -9")] boot).
Proof.
  split; [reflexivity|]. split; [reflexivity|].
  rewrite (proj1 (capture_never_fails world_garbled boot _ _ _ eq_refl)).
  reflexivity.
Defined.

(** C6, as the source has it.  Whatever becomes of the launch, the
    banner "Starting Audit..." is the first thing the wrapper prints, and
    printing it the first thing it does: when the console takes it, it is
    the first event of the run and the first line of the printed text,
    ahead of the launch; when the console refuses it, the error reaches
    the caller and the run has done nothing at all; when there is no
    standard output, nothing is printed and the launch is all the run
    does. *)
Theorem run_banner_first (w : world) (m : machine) :
  (write w (log m) BANNER = Written ->
   exists prints,
     events_of w m
     = Printed (lit "Starting Audit...") :: Launched (invocation w) :: prints
     /\ printed_by w m
        = lit "Starting Audit..." ++ [LF] ++ console_text prints
     /\ hd_error (split_lines (printed_by w m))
        = Some (lit "Starting Audit..."))
  /\ (forall e, write w (log m) BANNER = Refused e ->
                run w m = (Raise e, m) /\ events_of w m = [])
  /\ (write w (log m) BANNER = Dropped ->
      events_of w m = [Launched (invocation w)] /\ printed_by w m = []).
Proof.
  destruct (RunShape.run_shape w m)
    as [(e & Hb & Hrun)|[(Hb & r & prints & Hrun & Hp)|(Hb & r & Hrun)]].
  - split; [rewrite Hb; discriminate|].
    split; [|rewrite Hb; discriminate].
    intros e' He'. rewrite Hb in He'. injection He' as <-.
    split; [exact Hrun|].
    rewrite <- (RunFacts.emit_nil m) in Hrun at 2.
    apply (RunShape.events_of_emit _ _ _ _ Hrun).
  - split; [|split; [intros e He; rewrite Hb in He; discriminate
                    |rewrite Hb; discriminate]].
    intros _. exists prints.
    assert (Htext : printed_by w m
                    = lit "Starting Audit..." ++ [LF] ++ console_text prints).
    { unfold printed_by. rewrite (RunShape.events_of_emit _ _ _ _ Hrun).
      reflexivity. }
    split; [apply (RunShape.events_of_emit _ _ _ _ Hrun)|].
    split; [exact Htext|].
    rewrite Htext.
    change ([LF] ++ console_text prints) with (LF :: console_text prints).
    rewrite PyStrFacts.split_lines_app
      by (apply PyStrFacts.In_lit_LF; reflexivity).
    reflexivity.
  - split; [rewrite Hb; discriminate|].
    split; [intros e He; rewrite Hb in He; discriminate|].
    intros _. unfold printed_by.
    rewrite (RunShape.events_of_emit _ _ _ _ Hrun). split; reflexivity.
Qed.

Lemma run_banner_first_witness :
  write world_missing (log boot) BANNER = Written /\
  write world_ascii_cafe (log boot) BANNER = Written /\
  hd_error (split_lines (printed_by world_missing boot))
  = Some (lit "Starting Audit...") /\
  hd_error (split_lines (printed_by world_ascii_cafe boot))
  = Some (lit "Starting Audit...").
Proof.
  split; [reflexivity|]. split; [reflexivity|]. split.
  - destruct (proj1 (run_banner_first world_missing boot) eq_refl)
      as (prints & _ & _ & H). exact H.
  - destruct (proj1 (run_banner_first world_ascii_cafe boot) eq_refl)
      as (prints & _ & _ & H). exact H.
Defined.

(** C6 as stated fails: with standard output closed the run ends in the
    banner's error having printed nothing, and without a standard output
    the child is launched and nothing, the banner included, is ever
    printed. *)
Lemma run_without_banner :
  (write world_closed (log boot) BANNER = Refused closed_file /\
   run world_closed boot = (Raise closed_file, boot) /\
   printed_by world_closed boot = []) /\
  (sys_stdout world_no_stdout = None /\
   run world_no_stdout boot
   = (Return tt, emit [Launched (invocation world_no_stdout)] boot) /\
   printed_by world_no_stdout boot = []).
Proof. repeat split. Qed.

(** C7, as the source has it.  When the child exits with code 0, its
    captured stdout is exactly "OK" and its captured stderr is empty, and
    the console takes the six writes of the run, the complete printed
    output is the banner line, the line "STDOUT:", the line "OK", the
    line "STDERR:", an empty line and the line "EXIT CODE: 0", each ended
    by a line feed. *)
Theorem run_ok_transcript
        (w : world) (m : machine) (out err : list byte) :
  write w (log m) BANNER = Written ->
  child w (invocation w) = Exits out err 0 ->
  captured out = lit "OK" ->
  captured err = [] ->
  takes w (log m ++ [Printed BANNER; Launched (invocation w)])
        [lit "STDOUT:"; lit "OK"; lit "STDERR:"; []; lit "EXIT CODE: 0"]
  = true ->
  printed_by w m
  = lit "Starting Audit..." ++ [LF]
    ++ lit "STDOUT:" ++ [LF]
    ++ lit "OK" ++ [LF]
    ++ lit "STDERR:" ++ [LF]
    ++ [LF]
    ++ lit "EXIT CODE: 0" ++ [LF].
Proof.
  intros Hb Hch Hout Herr Htakes.
  assert (Hrun : run w m
                 = (Return tt,
                    emit (Printed BANNER
                          :: report w (captured out) (captured err) 0) m)).
  { apply (RunTaken.run_exits_taken w m out err 0 Hb Hch).
    rewrite Hout, Herr. exact Htakes. }
  unfold printed_by. rewrite (RunShape.events_of_emit _ _ _ _ Hrun).
  rewrite RunCases.console_text_report, Hout, Herr. reflexivity.
Qed.

Lemma run_ok_transcript_witness :
  write world_ascii_ok (log boot) BANNER = Written /\
  child world_ascii_ok (invocation world_ascii_ok)
  = Exits [x4f; x4b] [] 0 /\
  captured [x4f; x4b] = lit "OK" /\
  captured [] = [] /\
  takes world_ascii_ok
        (log boot ++ [Printed BANNER; Launched (invocation world_ascii_ok)])
        [lit "STDOUT:"; lit "OK"; lit "STDERR:"; []; lit "EXIT CODE: 0"]
  = true /\
  printed_by world_ascii_ok boot
  = lit "Starting Audit..." ++ [LF]
    ++ lit "STDOUT:" ++ [LF]
    ++ lit "OK" ++ [LF]
    ++ lit "STDERR:" ++ [LF]
    ++ [LF]
    ++ lit "EXIT CODE: 0" ++ [LF].
Proof.
  repeat (split; [reflexivity|]).
  exact (run_ok_transcript world_ascii_ok boot _ _
           eq_refl eq_refl eq_refl eq_refl eq_refl).
Defined.

(** C7 as stated fails: the child exits 0 with "OK" on stdout and
    nothing on stderr, and the printed output is empty, once because
    standard output is closed (the banner's error reaches the caller),
    once because there is no standard output at all ([run] returns). *)
Lemma ok_scenario_without_transcript :
  (child world_closed (invocation world_closed) = Exits [x4f; x4b] [] 0 /\
   captured [x4f; x4b] = lit "OK" /\
   captured [] = [] /\
   printed_by world_closed boot = [] /\
   fst (run world_closed boot) = Raise closed_file) /\
  (child world_no_stdout (invocation world_no_stdout)
   = Exits [x4f; x4b] [] 0 /\
   printed_by world_no_stdout boot = [] /\
   fst (run world_no_stdout boot) = Return tt).
Proof. repeat split. Qed.

(** C8.  Whatever the run, every argument vector the wrapper hands to
    the launcher is the three tokens [sys.executable], the fixed relative
    path of the audit script and ".", the launcher is called at most
    once, and exactly once as soon as the banner is out; the result of the
    launch carries the same three tokens as its [args]. *)
Theorem run_invocation (w : world) (m : machine) :
  (forall argv,
      In argv (launched_by w m) ->
      argv = [sys_executable w;
              lit ".agent/skills/frontend-design/scripts/ux_audit.py";
              lit "."])
  /\ (List.length (launched_by w m) <= 1)%nat
  /\ (write w (log m) BANNER = Written ->
      launched_by w m
      = [[sys_executable w;
          lit ".agent/skills/frontend-design/scripts/ux_audit.py";
          lit "."]])
  /\ (forall m1 result m2,
        subprocess_run w (invocation w) Utf8.Ignore m1 = (Return result, m2) ->
        args result
        = [sys_executable w;
           lit ".agent/skills/frontend-design/scripts/ux_audit.py";
           lit "."]).
Proof.
  assert (Hlast : forall m1 result m2,
             subprocess_run w (invocation w) Utf8.Ignore m1
             = (Return result, m2) ->
             args result = invocation w).
  { intros m1 result m2.
    destruct (child w (invocation w)) as [out err E|e] eqn:Hch.
    - rewrite (RunFacts.subprocess_run_exits _ _ _ _ _ _ Hch).
      intros [= <- _]. reflexivity.
    - rewrite (RunFacts.subprocess_run_fails _ _ _ _ _ Hch). discriminate. }
  destruct (RunShape.run_shape w m)
    as [(e & Hb & Hrun)|[(Hb & r & prints & Hrun & Hp)|(Hb & r & Hrun)]].
  - rewrite <- (RunFacts.emit_nil m) in Hrun at 2.
    unfold launched_by. rewrite (RunShape.events_of_emit _ _ _ _ Hrun).
    simpl. split; [intros argv []|]. split; [lia|].
    split; [rewrite Hb; discriminate|exact Hlast].
  - unfold launched_by. rewrite (RunShape.events_of_emit _ _ _ _ Hrun).
    cbn [launches]. rewrite (RunShape.launches_prints _ Hp).
    split; [intros argv [<-|[]]; reflexivity|].
    split; [simpl; lia|]. split; [reflexivity|exact Hlast].
  - unfold launched_by. rewrite (RunShape.events_of_emit _ _ _ _ Hrun).
    cbn [launches].
    split; [intros argv [<-|[]]; reflexivity|].
    split; [simpl; lia|]. split; [reflexivity|exact Hlast].
Qed.

Lemma run_invocation_witness :
  write world_ok (log boot) BANNER = Written /\
  launched_by world_ok boot
  = [[lit "/usr/bin/python3";
      lit ".agent/skills/frontend-design/scripts/ux_audit.py";
      lit "."]].
Proof.
  split; [reflexivity|].
  exact (proj1 (proj2 (proj2 (run_invocation world_ok boot))) eq_refl).
Defined.

(** C9.  Whatever the run, it leaves the files, the environment
    variables and the network traffic of the machine as they were; all it
    adds to the trace are console writes and launches, at most one launch,
    and exactly one as soon as the banner is out. *)
Theorem run_side_effects (w : world) (m : machine) :
  files (snd (run w m)) = files m
  /\ environ (snd (run w m)) = environ m
  /\ sent (snd (run w m)) = sent m
  /\ log (snd (run w m)) = log m ++ events_of w m
  /\ (List.length (launched_by w m) <= 1)%nat
  /\ (write w (log m) BANNER = Written ->
      List.length (launched_by w m) = 1%nat
      /\ List.length (filter is_print (events_of w m))
         = (List.length (events_of w m) - 1)%nat).
Proof.
  destruct (RunShape.run_shape w m)
    as [(e & Hb & Hrun)|[(Hb & r & prints & Hrun & Hp)|(Hb & r & Hrun)]].
  - rewrite <- (RunFacts.emit_nil m) in Hrun at 2.
    unfold launched_by. rewrite (RunShape.events_of_emit _ _ _ _ Hrun).
    rewrite Hrun. simpl. rewrite app_nil_r.
    do 4 (split; [reflexivity|]). split; [lia|].
    rewrite Hb. discriminate.
  - unfold launched_by. rewrite (RunShape.events_of_emit _ _ _ _ Hrun).
    rewrite Hrun. cbn [launches snd emit files environ sent log].
    rewrite (RunShape.launches_prints _ Hp).
    do 4 (split; [reflexivity|]). split; [simpl; lia|].
    intros _. split; [reflexivity|].
    cbn [filter is_print List.length].
    rewrite (forallb_filter_id is_print prints Hp). lia.
  - unfold launched_by. rewrite (RunShape.events_of_emit _ _ _ _ Hrun).
    rewrite Hrun. cbn [launches snd emit files environ sent log].
    do 4 (split; [reflexivity|]). split; [simpl; lia|].
    rewrite Hb. discriminate.
Qed.

Lemma run_side_effects_witness :
  write world_ok (log boot) BANNER = Written /\
  List.length (launched_by world_ok boot) = 1%nat /\
  files (snd (run world_ok boot)) = [].
Proof.
  split; [reflexivity|]. split.
  - exact (proj1 (proj2 (proj2 (proj2 (proj2 (proj2
             (run_side_effects world_ok boot))))) eq_refl)).
  - exact (proj1 (run_side_effects world_ok boot)).
Defined.



(** An error of the ordinary class raised by a print of the report is
    inside the guarded block as well: the console takes the banner and
    "STDOUT:", refuses the check mark, and the run ends with the
    "FAILED: " line instead of the rest of the report. *)
Example report_error_is_caught :
  run world_charmap boot
  = (Return tt,
     emit [Printed BANNER;
           Launched (invocation world_charmap);
           Printed (lit "STDOUT:");
           Printed (lit "FAILED: " ++ exc_str charmap_error)] boot).
Proof. reflexivity. Qed.

(* ------------------------------------------------------------------ *)
(** ** Beyond the contract: console errors, traces, reading the output *)

Import AuditTrace.

(** X1.  A print of the report that the console refuses with an error of
    the ordinary class is reported like a launch failure: the texts
    before it stay printed, the rest of the report is dropped, the
    "FAILED: " line for that error follows and [run] returns normally. *)
Theorem refused_report_print_is_reported
        (w : world) (m : machine) (out err : list byte) (E : Z)
        (k : nat) (e : exc) :
  write w (log m) BANNER = Written ->
  child w (invocation w) = Exits out err E ->
  (k < 5)%nat ->
  takes w (log m ++ [Printed BANNER; Launched (invocation w)])
        (firstn k (report_texts (captured out) (captured err) E)) = true ->
  write w
    ((log m ++ [Printed BANNER; Launched (invocation w)])
     ++ map Printed (firstn k (report_texts (captured out) (captured err) E)))
    (nth k (report_texts (captured out) (captured err) E) [])
  = Refused e ->
  is_Exception e = true ->
  write w
    ((log m ++ [Printed BANNER; Launched (invocation w)])
     ++ map Printed (firstn k (report_texts (captured out) (captured err) E)))
    (lit "FAILED: " ++ exc_str e)
  = Written ->
  run w m
  = (Return tt,
     emit ([Printed BANNER; Launched (invocation w)]
           ++ map Printed
                (firstn k (report_texts (captured out) (captured err) E))
           ++ [Printed (lit "FAILED: " ++ exc_str e)]) m).
Proof.
  intros Hb Hch Hk Htakes Hrefused Hexc Hfailed.
  rewrite (RunFacts.run_after_banner _ _ Hb).
  unfold try_except_Exception.
  rewrite (TraceFacts.guarded_print_seq _ _ _ _ _ Hch).
  rewrite (TraceFacts.print_seq_stops w _ _ k e).
  - rewrite Hexc. unfold handler.
    rewrite RunFacts.print_accepted.
    + rewrite !RunFacts.emit_emit. reflexivity.
    + rewrite !RunFacts.emit_emit, TraceFacts.log_emit.
      rewrite <- app_assoc in Hfailed. exact Hfailed.
  - simpl. exact Hk.
  - rewrite RunFacts.emit_emit, TraceFacts.log_emit. exact Htakes.
  - rewrite RunFacts.emit_emit, TraceFacts.log_emit. exact Hrefused.
Qed.

Lemma refused_report_print_is_reported_witness :
  printed_by world_ascii_cafe boot
  = lit "Starting Audit..." ++ [LF]
    ++ lit "STDOUT:" ++ [LF]
    ++ lit "FAILED: 'ascii' codec can't encode character '\xe9' in position 3: ordinal not in range(128)"
    ++ [LF]
  /\ fst (run world_ascii_cafe boot) = Return tt.
Proof.
  pose proof (refused_report_print_is_reported
                world_ascii_cafe boot _ _ _ 1%nat _
                eq_refl eq_refl (le_n_S _ _ (le_n_S _ _ (Nat.le_0_l _)))
                eq_refl eq_refl eq_refl eq_refl) as H.
  split.
  - unfold printed_by, events_of. rewrite H. reflexivity.
  - rewrite H. reflexivity.
Defined.

(** X2.  The handler itself is not guarded: when the launch raises an
    error of the ordinary class and the console refuses the "FAILED: "
    line, the console's error, of whatever class, reaches the caller and
    the banner line is all that was printed. *)
Theorem handler_error_propagates
        (w : world) (m : machine) (e e' : exc) :
  write w (log m) BANNER = Written ->
  child w (invocation w) = Raises e ->
  is_Exception e = true ->
  write w (log m ++ [Printed BANNER; Launched (invocation w)])
                 (lit "FAILED: " ++ exc_str e) = Refused e' ->
  run w m = (Raise e', emit [Printed BANNER; Launched (invocation w)] m)
  /\ printed_by w m = lit "Starting Audit..." ++ [LF].
Proof.
  intros Hb Hch Hexc Hrefused.
  assert (Hrun : run w m
                 = (Raise e',
                    emit [Printed BANNER; Launched (invocation w)] m)).
  { rewrite (RunFacts.run_after_banner _ _ Hb).
    unfold try_except_Exception.
    rewrite (RunFacts.guarded_fails _ _ _ Hch), Hexc. unfold handler.
    rewrite RunFacts.emit_emit.
    apply RunFacts.print_refused. exact Hrefused. }
  split; [exact Hrun|].
  unfold printed_by. rewrite (RunShape.events_of_emit _ _ _ _ Hrun).
  reflexivity.
Qed.

Lemma handler_error_propagates_witness :
  write world_ascii_missing (log boot) BANNER = Written /\
  child world_ascii_missing (invocation world_ascii_missing)
  = Raises umlaut_missing /\
  is_Exception umlaut_missing = true /\
  fst (run world_ascii_missing boot)
  = Raise {| exc_class_of := ExceptionSub "UnicodeEncodeError";
             exc_str := lit "'ascii' codec can't encode character '\xf6' in position 55: ordinal not in range(128)" |}.
Proof.
  split; [reflexivity|]. split; [reflexivity|]. split; [reflexivity|].
  rewrite (proj1 (handler_error_propagates
                    world_ascii_missing boot umlaut_missing _
                    eq_refl eq_refl eq_refl eq_refl)).
  reflexivity.
Defined.

(** X3.  [run] returns normally even over a console that refuses
    writes, as long as the banner goes out, the console's errors are of
    the ordinary class and the "FAILED: " line of each error that can
    occur (the console's own and the launch's) is taken: a failing print
    of the report cannot make [run] raise. *)
Theorem run_survives_console_errors (w : world) (m : machine) :
  write w (log m) BANNER = Written ->
  (forall evs t e, write w evs t = Refused e -> is_Exception e = true) ->
  (forall evs t e evs',
      write w evs t = Refused e ->
      write w evs' (lit "FAILED: " ++ exc_str e) = Written) ->
  (forall e evs',
      child w (invocation w) = Raises e ->
      is_Exception e = true /\
      write w evs' (lit "FAILED: " ++ exc_str e) = Written) ->
  fst (run w m) = Return tt.
Proof.
  intros Hb Hclass Hown Hlaunch.
  rewrite (RunFacts.run_after_banner _ _ Hb).
  unfold try_except_Exception.
  destruct (child w (invocation w)) as [out err E|e] eqn:Hch.
  - rewrite (TraceFacts.guarded_print_seq _ _ _ _ _ Hch).
    destruct (TraceFacts.print_seq_cases
                w (report_texts (captured out) (captured err) E)
                (emit [Launched (invocation w)] (emit [Printed BANNER] m))
                (fun evs t => RunFacts.write_not_dropped _ _ _ evs t Hb))
      as [Hall|(k & e & Hk & Htakes & Hrefused)].
    + rewrite (TraceFacts.print_seq_all _ _ _ Hall). reflexivity.
    + rewrite (TraceFacts.print_seq_stops _ _ _ _ _ Hk Htakes Hrefused).
      rewrite (Hclass _ _ _ Hrefused). unfold handler.
      rewrite RunFacts.print_accepted; [reflexivity|].
      apply (Hown _ _ _ _ Hrefused).
  - rewrite (RunFacts.guarded_fails _ _ _ Hch).
    destruct (Hlaunch e (log (emit [Launched (invocation w)]
                                   (emit [Printed BANNER] m))) eq_refl)
      as [Hexc Hfailed].
    rewrite Hexc. unfold handler.
    rewrite RunFacts.print_accepted; [reflexivity|exact Hfailed].
Qed.

Lemma run_survives_console_errors_witness :
  write world_charmap (log boot) BANNER = Written /\
  write world_charmap
    [Printed BANNER; Launched (invocation world_charmap);
     Printed (lit "STDOUT:")] [0x2713]
  = Refused charmap_error /\
  fst (run world_charmap boot) = Return tt.
Proof.
  split; [reflexivity|]. split; [reflexivity|].
  apply (run_survives_console_errors world_charmap boot eq_refl).
  - intros evs t e. unfold write. simpl.
    destruct (existsb (fun c => 255 <? c) t); [|discriminate].
    intros [= <-]. reflexivity.
  - intros evs t e evs'. unfold write. simpl.
    destruct (existsb (fun c => 255 <? c) t); [|discriminate].
    intros [= <-]. reflexivity.
  - intros e evs'. simpl. discriminate.
Defined.

(** X4.  Once the banner is out and the child has exited, what a run
    adds to the trace is the banner, the launch, the first [k] of the
    five texts of the report, and after a report cut short ([k < 5]) at
    most the "FAILED: " line of an error of the ordinary class: seven
    events at most.  [run] returns normally exactly when the report is
    complete or the "FAILED: " line was printed. *)
Theorem run_trace_shape
        (w : world) (m : machine) (out err : list byte) (E : Z) :
  write w (log m) BANNER = Written ->
  child w (invocation w) = Exits out err E ->
  exists k tail,
    (k <= 5)%nat
    /\ events_of w m
       = [Printed BANNER; Launched (invocation w)]
         ++ map Printed
              (firstn k (report_texts (captured out) (captured err) E))
         ++ tail
    /\ (tail = []
        \/ ((k < 5)%nat
            /\ exists e, is_Exception e = true
                         /\ tail = [Printed (lit "FAILED: " ++ exc_str e)]))
    /\ (fst (run w m) = Return tt <-> k = 5%nat \/ tail <> [])
    /\ (List.length (events_of w m) <= 7)%nat.
Proof.
  intros Hb Hch.
  assert (Hshape : forall r k tail,
             run w m
             = (r, emit ([Printed BANNER; Launched (invocation w)]
                         ++ map Printed
                              (firstn k (report_texts (captured out)
                                                      (captured err) E))
                         ++ tail) m) ->
             events_of w m
             = [Printed BANNER; Launched (invocation w)]
               ++ map Printed
                    (firstn k (report_texts (captured out)
                                            (captured err) E))
               ++ tail).
  { intros r k tail Hrun. apply (RunShape.events_of_emit _ _ _ _ Hrun). }
  assert (Hlen : forall k tail,
             (k <= 5)%nat -> (k = 5%nat -> tail = []) ->
             (List.length tail <= 1)%nat ->
             (List.length
                ([Printed BANNER; Launched (invocation w)]
                 ++ map Printed
                      (firstn k (report_texts (captured out)
                                              (captured err) E))
                 ++ tail) <= 7)%nat).
  { intros k tail Hk H5 Htail.
    rewrite !length_app, length_map, length_firstn. simpl List.length.
    destruct (Nat.eq_dec k 5) as [->|Hne]; [rewrite (H5 eq_refl); simpl|];
      lia. }
  pose proof (RunFacts.run_after_banner _ _ Hb) as Hrun.
  unfold try_except_Exception in Hrun.
  rewrite (TraceFacts.guarded_print_seq _ _ _ _ _ Hch) in Hrun.
  destruct (TraceFacts.print_seq_cases
              w (report_texts (captured out) (captured err) E)
              (emit [Launched (invocation w)] (emit [Printed BANNER] m))
              (fun evs t => RunFacts.write_not_dropped _ _ _ evs t Hb))
    as [Hall|(k & e & Hk & Htakes & Hrefused)].
  - rewrite (TraceFacts.print_seq_all _ _ _ Hall) in Hrun.
    rewrite !RunFacts.emit_emit in Hrun.
    exists 5%nat, []. split; [lia|].
    split; [exact (Hshape _ 5%nat [] Hrun)|].
    split; [left; reflexivity|].
    split; [rewrite Hrun; simpl; tauto|].
    rewrite (Hshape _ 5%nat [] Hrun). apply Hlen; simpl; auto.
  - rewrite (TraceFacts.print_seq_stops _ _ _ _ _ Hk Htakes Hrefused) in Hrun.
    simpl in Hk.
    destruct (is_Exception e) eqn:Hexc.
    + unfold handler in Hrun.
      match type of Hrun with
      | context [print w ?t ?m2] =>
          destruct (write w (log m2) t) as [| |e'] eqn:Hw
      end.
      * rewrite (RunFacts.print_accepted _ _ _ Hw) in Hrun.
        rewrite !RunFacts.emit_emit in Hrun.
        exists k, [Printed (lit "FAILED: " ++ exc_str e)]. split; [lia|].
        split; [exact (Hshape _ k _ Hrun)|].
        split; [right; split; [lia|exists e; auto]|].
        split.
        { rewrite Hrun. simpl. split; [right; discriminate|reflexivity]. }
        rewrite (Hshape _ k _ Hrun). apply Hlen; simpl; lia.
      * exfalso. exact (RunFacts.write_not_dropped _ _ _ _ _ Hb Hw).
      * rewrite (RunFacts.print_refused _ _ _ _ Hw) in Hrun.
        rewrite !RunFacts.emit_emit in Hrun.
        rewrite <- (app_nil_r (map Printed _)) in Hrun.
        exists k, []. split; [lia|].
        split; [exact (Hshape _ k [] Hrun)|].
        split; [left; reflexivity|].
        split.
        { rewrite Hrun. simpl. split; [discriminate|].
          intros [->|Hne]; [lia|contradiction]. }
        rewrite (Hshape _ k [] Hrun). apply Hlen; simpl; lia.
    + rewrite !RunFacts.emit_emit in Hrun.
      rewrite <- (app_nil_r (map Printed _)) in Hrun.
      exists k, []. split; [lia|].
      split; [exact (Hshape _ k [] Hrun)|].
      split; [left; reflexivity|].
      split.
      { rewrite Hrun. simpl. split; [discriminate|].
        intros [->|Hne]; [lia|contradiction]. }
      rewrite (Hshape _ k [] Hrun). apply Hlen; simpl; lia.
Qed.

Lemma run_trace_shape_witness :
  write world_ascii_cafe (log boot) BANNER = Written /\
  child world_ascii_cafe (invocation world_ascii_cafe)
  = Exits [x63; x61; x66; xc3; xa9; x0a] [] 3 /\
  (List.length (events_of world_ascii_cafe boot) <= 7)%nat.
Proof.
  split; [reflexivity|]. split; [reflexivity|].
  destruct (run_trace_shape world_ascii_cafe boot _ _ _ eq_refl eq_refl)
    as (k & tail & _ & _ & _ & _ & H).
  exact H.
Defined.

(** X5.  The exit code can be read back from what a successful run
    prints, whatever the child wrote: with a working console, the line
    before the final line feed of the printed text is "EXIT CODE: "
    followed by a numeral that reads as the child's exit code, even when
    the captured streams hold line feeds or lines that look like status
    lines. *)
Theorem exit_code_reads_back
        (w : world) (m : machine) (out err : list byte) (E : Z) :
  console_ok w ->
  child w (invocation w) = Exits out err E ->
  status_line (printed_by w m) = lit "EXIT CODE: " ++ str_of_int E
  /\ parse_exit_code (printed_by w m) = Some E.
Proof.
  intros Hok Hch.
  pose proof (RunCases.run_exits w m out err E Hok Hch) as Hrun.
  assert (Hline : status_line (printed_by w m)
                  = lit "EXIT CODE: " ++ str_of_int E).
  { unfold printed_by. rewrite (RunShape.events_of_emit _ _ _ _ Hrun).
    rewrite RunCases.console_text_report.
    replace (lit "Starting Audit..." ++ [LF]
             ++ lit "STDOUT:" ++ [LF] ++ captured out ++ [LF]
             ++ lit "STDERR:" ++ [LF] ++ captured err ++ [LF]
             ++ lit "EXIT CODE: " ++ str_of_int E ++ [LF])
      with ((lit "Starting Audit..." ++ [LF]
             ++ lit "STDOUT:" ++ [LF] ++ captured out ++ [LF]
             ++ lit "STDERR:" ++ [LF] ++ captured err)
            ++ LF :: (lit "EXIT CODE: " ++ str_of_int E) ++ LF :: [])
      by (repeat rewrite <- app_assoc; reflexivity).
    unfold status_line.
    rewrite !LineFacts.split_lines_LF.
    rewrite (LineFacts.split_lines_one (lit "EXIT CODE: " ++ str_of_int E)).
    - rewrite !rev_app_distr. reflexivity.
    - intros Hin. apply in_app_or in Hin. destruct Hin as [Hin|Hin].
      + revert Hin. apply PyStrFacts.In_lit_LF. reflexivity.
      + revert Hin. apply LineFacts.str_of_int_no_LF. }
  split; [exact Hline|].
  unfold parse_exit_code. cbv zeta. rewrite Hline.
  rewrite LineFacts.startswith_app.
  change (skipn 11 (lit "EXIT CODE: " ++ str_of_int E)) with (str_of_int E).
  apply PyStrFacts.int_of_str_of_int.
Qed.

Lemma exit_code_reads_back_witness :
  console_ok world_mimic /\
  child world_mimic (invocation world_mimic)
  = Exits [x45; x58; x49; x54; x20; x43; x4f; x44; x45; x3a; x20; x30;
           x0d; x0a; x46; x41; x49; x4c; x45; x44; x3a; x20; x78]
          [x0a; x0a] 7 /\
  captured [x45; x58; x49; x54; x20; x43; x4f; x44; x45; x3a; x20; x30;
            x0d; x0a; x46; x41; x49; x4c; x45; x44; x3a; x20; x78]
  = lit "EXIT CODE: 0" ++ [LF] ++ lit "FAILED: x" /\
  parse_exit_code (printed_by world_mimic boot) = Some 7.
Proof.
  assert (Hok : console_ok world_mimic) by (intros evs t; reflexivity).
  split; [exact Hok|]. split; [reflexivity|]. split; [reflexivity|].
  exact (proj2 (exit_code_reads_back world_mimic boot _ _ _ Hok eq_refl)).
Defined.

(* ------------------------------------------------------------------ *)
(** ** More about the captured text *)

Module CaptureFacts.
Import PyStr Utf8 Utf8Facts.

Lemma byte_val_range b : 0 <= byte_val b < 256.
Proof. unfold byte_val. pose proof (Byte.to_N_bounded b). lia. Qed.

(** Whatever the step decodes is a Unicode scalar value. *)
Lemma utf8_step_scalar s ch n :
  utf8_step s = Decoded ch n -> is_scalar ch = true.
Proof.
  unfold utf8_step, bad_second3, bad_second4, is_continuation. cbv zeta.
  intros H.
  destruct s as [|b1 [|b2 [|b3 [|b4 s4]]]];
    rewrite ?Z.shiftl_mul_pow2 in H by lia;
    repeat match type of H with
           | context [if ?c then _ else _] => destruct c eqn:?
           end;
    try discriminate; injection H as <- <-;
    try pose proof (byte_val_range b1);
    try pose proof (byte_val_range b2);
    try pose proof (byte_val_range b3);
    try pose proof (byte_val_range b4);
    bool_facts; unfold is_scalar;
    apply orb_true_iff; rewrite !andb_true_iff, !Z.leb_le, !Z.ltb_lt; lia.
Qed.

Lemma decode_loop_ignore_scalar s :
  forall pos skip t,
    decode_loop Ignore pos skip s = DecodeOk t ->
    forallb is_scalar t = true.
Proof.
  induction s as [|b s IH]; intros pos skip t; cbn [decode_loop].
  - intros [= <-]. reflexivity.
  - destruct skip as [|k]; [|apply IH].
    destruct (utf8_step (b :: s)) as [ch n|r n] eqn:Hstep; [|apply IH].
    intros H. apply push_ok in H. destruct H as (t' & H & ->).
    cbn [forallb]. rewrite (utf8_step_scalar _ _ _ Hstep), (IH _ _ _ H).
    reflexivity.
Qed.

(** A text is never longer than the bytes it was decoded from. *)
Lemma decode_loop_ignore_length s :
  forall pos skip t,
    decode_loop Ignore pos skip s = DecodeOk t ->
    (List.length t <= List.length s)%nat.
Proof.
  induction s as [|b s IH]; intros pos skip t; cbn [decode_loop].
  - intros [= <-]. simpl. lia.
  - destruct skip as [|k].
    + destruct (utf8_step (b :: s)) as [ch n|r n].
      * intros H. apply push_ok in H. destruct H as (t' & H & ->).
        specialize (IH _ _ _ H). simpl. lia.
      * intros H. specialize (IH _ _ _ H). simpl. lia.
    + intros H. specialize (IH _ _ _ H). simpl. lia.
Qed.

(** Bytes below 80 decode to themselves. *)
Lemma decode_loop_ascii e s :
  forallb (fun b => byte_val b <? 0x80) s = true ->
  forall pos, decode_loop e pos 0 s = DecodeOk (map byte_val s).
Proof.
  induction s as [|b s IH]; intros Hs pos.
  - reflexivity.
  - simpl in Hs. apply andb_true_iff in Hs. destruct Hs as [Hb Hs].
    cbn [decode_loop]. unfold utf8_step. cbv zeta. rewrite Hb.
    cbn [pred]. destruct s as [|b' s'].
    + reflexivity.
    + rewrite (IH Hs). reflexivity.
Qed.

(** Induction two elements at a time, as [replace_crlf] recurses. *)
Lemma list_ind2 {A} (P : list A -> Prop) :
  P [] ->
  (forall a, P [a]) ->
  (forall a b l, P l -> P (b :: l) -> P (a :: b :: l)) ->
  forall l, P l.
Proof.
  intros H0 H1 H2 l.
  assert (H : P l /\ forall a, P (a :: l)).
  { induction l as [|b l [IHl IHl']]; split; auto. }
  exact (proj1 H).
Qed.

Lemma replace_crlf_cons2 a b l :
  replace_crlf (a :: b :: l)
  = if (a =? CR) && (b =? LF) then LF :: replace_crlf l
    else a :: replace_crlf (b :: l).
Proof. reflexivity. Qed.

Lemma replace_crlf_In c t : In c (replace_crlf t) -> In c t \/ c = LF.
Proof.
  induction t as [|a|a b l IHl IHbl] using list_ind2.
  - simpl. tauto.
  - simpl. tauto.
  - rewrite replace_crlf_cons2. destruct ((a =? CR) && (b =? LF)).
    + intros [<-|Hin]; [right; reflexivity|].
      destruct (IHl Hin) as [H|H]; [left; right; right; exact H|right; exact H].
    + intros [<-|Hin]; [left; left; reflexivity|].
      destruct (IHbl Hin) as [H|H]; [left; right; exact H|right; exact H].
Qed.

Lemma replace_crlf_length t :
  (List.length (replace_crlf t) <= List.length t)%nat.
Proof.
  induction t as [|a|a b l IHl IHbl] using list_ind2.
  - simpl. lia.
  - simpl. lia.
  - rewrite replace_crlf_cons2. destruct ((a =? CR) && (b =? LF)).
    + cbn [List.length] in *. lia.
    + cbn [List.length] in *. lia.
Qed.

Lemma replace_crlf_id t : ~ In CR t -> replace_crlf t = t.
Proof.
  induction t as [|a|a b l IHl IHbl] using list_ind2.
  - reflexivity.
  - reflexivity.
  - intros Hno. rewrite replace_crlf_cons2.
    destruct (Z.eqb_spec a CR) as [->|_].
    + exfalso. apply Hno. left. reflexivity.
    + cbn [andb]. rewrite IHbl; [reflexivity|].
      intros Hin. apply Hno. right. exact Hin.
Qed.

Lemma replace_cr_id t : ~ In CR t -> replace_cr t = t.
Proof.
  unfold replace_cr. induction t as [|a t IH]; intros Hno.
  - reflexivity.
  - cbn [map]. destruct (Z.eqb_spec a CR) as [->|_].
    + exfalso. apply Hno. left. reflexivity.
    + rewrite IH; [reflexivity|]. intros Hin. apply Hno. right. exact Hin.
Qed.

(** No carriage return is left by the translation. *)
Lemma translate_newlines_no_CR t : ~ In CR (translate_newlines t).
Proof.
  unfold translate_newlines, replace_cr. intros Hin.
  apply in_map_iff in Hin. destruct Hin as (c & Hc & _).
  destruct (c =? CR) eqn:Hcr; [discriminate|].
  apply Z.eqb_neq in Hcr. exact (Hcr Hc).
Qed.

Lemma translate_newlines_id t : ~ In CR t -> translate_newlines t = t.
Proof.
  intros Hno. unfold translate_newlines.
  rewrite (replace_crlf_id _ Hno). apply replace_cr_id. exact Hno.
Qed.

Lemma translate_newlines_In c t :
  In c (translate_newlines t) -> In c t \/ c = LF.
Proof.
  unfold translate_newlines, replace_cr. intros Hin.
  apply in_map_iff in Hin. destruct Hin as (a & Ha & Hin).
  destruct (a =? CR); [right; symmetry; exact Ha|].
  subst a. apply replace_crlf_In. exact Hin.
Qed.

Lemma translate_newlines_length t :
  (List.length (translate_newlines t) <= List.length t)%nat.
Proof.
  unfold translate_newlines, replace_cr. rewrite length_map.
  apply replace_crlf_length.
Qed.

Lemma translate_newlines_scalar t :
  forallb is_scalar t = true ->
  forallb is_scalar (translate_newlines t) = true.
Proof.
  intros Ht. apply forallb_forall. intros c Hin.
  destruct (translate_newlines_In _ _ Hin) as [H| ->]; [|reflexivity].
  rewrite forallb_forall in Ht. apply Ht. exact H.
Qed.

End CaptureFacts.

(* ------------------------------------------------------------------ *)
(** ** What literals and numerals are made of *)

Module LitFacts.
Import PyStr Utf8.

Lemma lit_avoids c s :
  forallb (fun a => negb (Z.of_N (N_of_ascii a) =? c))
          (list_ascii_of_string s) = true ->
  ~ In c (lit s).
Proof.
  unfold lit. intros H Hin. apply in_map_iff in Hin.
  destruct Hin as (a & Ha & Hin).
  rewrite forallb_forall in H. specialize (H a Hin).
  rewrite Ha, Z.eqb_refl in H. discriminate.
Qed.

Lemma lit_scalar s : forallb is_scalar (lit s) = true.
Proof.
  unfold lit. apply forallb_forall. intros c Hin.
  apply in_map_iff in Hin. destruct Hin as (a & <- & _).
  pose proof (N_ascii_bounded a). unfold is_scalar.
  apply orb_true_iff. left. apply andb_true_iff.
  rewrite Z.leb_le, Z.ltb_lt. lia.
Qed.

Lemma uint_no_CR d :
  forallb (fun a => negb (Z.of_N (N_of_ascii a) =? CR))
          (list_ascii_of_string (NilEmpty.string_of_uint d)) = true.
Proof. induction d; simpl; auto. Qed.

Lemma str_of_int_no_CR n : ~ In CR (str_of_int n).
Proof.
  unfold str_of_int. apply lit_avoids.
  unfold NilZero.string_of_int, NilZero.string_of_uint.
  destruct (Z.to_int n) as [d|d]; destruct d; simpl; auto using uint_no_CR.
Qed.

End LitFacts.

(* ------------------------------------------------------------------ *)
(** ** Beyond the contract: the captured text *)

(** X6.  With a working console, what a run with a completed child
    prints holds no carriage return and nothing but Unicode scalar
    values, whatever bytes the child wrote: the output can always be
    encoded as UTF-8 again. *)
Theorem printed_report_is_clean
        (w : world) (m : machine) (out err : list byte) (E : Z) :
  console_ok w ->
  child w (invocation w) = Exits out err E ->
  ~ In CR (printed_by w m)
  /\ forallb Utf8.is_scalar (printed_by w m) = true
  /\ Utf8.decode Utf8.Strict (Utf8.encode (printed_by w m))
     = Utf8.DecodeOk (printed_by w m).
Proof.
  intros Hok Hch.
  pose proof (RunCases.run_exits w m out err E Hok Hch) as Hrun.
  assert (Hcap : forall data,
             ~ In CR (captured data)
             /\ forallb Utf8.is_scalar (captured data) = true).
  { intros data. unfold captured, Utf8.decode.
    destruct (Utf8Facts.decode_loop_ignore_total data 0 0) as [t Ht].
    rewrite Ht. split.
    - apply CaptureFacts.translate_newlines_no_CR.
    - apply CaptureFacts.translate_newlines_scalar.
      apply (CaptureFacts.decode_loop_ignore_scalar _ _ _ _ Ht). }
  assert (Htext : printed_by w m
                  = lit "Starting Audit..." ++ [LF]
                    ++ lit "STDOUT:" ++ [LF] ++ captured out ++ [LF]
                    ++ lit "STDERR:" ++ [LF] ++ captured err ++ [LF]
                    ++ lit "EXIT CODE: " ++ str_of_int E ++ [LF]).
  { unfold printed_by. rewrite (RunShape.events_of_emit _ _ _ _ Hrun).
    apply RunCases.console_text_report. }
  assert (Hscalar : forallb Utf8.is_scalar (printed_by w m) = true).
  { rewrite Htext. rewrite !forallb_app.
    rewrite !LitFacts.lit_scalar.
    rewrite (proj2 (Hcap out)), (proj2 (Hcap err)).
    unfold str_of_int. rewrite LitFacts.lit_scalar. reflexivity. }
  split; [|split; [exact Hscalar|]].
  - rewrite Htext. intros Hin.
    repeat (apply in_app_or in Hin; destruct Hin as [Hin|Hin]);
      try (revert Hin; apply LitFacts.lit_avoids; reflexivity);
      try (revert Hin; apply (proj1 (Hcap _)));
      try (revert Hin; apply LitFacts.str_of_int_no_CR);
      try (destruct Hin as [Hin|[]]; discriminate).
  - apply (Utf8Facts.decode_loop_encode _ _ Hscalar).
Qed.

Lemma printed_report_is_clean_witness :
  console_ok world_garbled /\
  child world_garbled (invocation world_garbled)
  = Exits [xff; x4f; x4b; x0d; x0a; xe2; x82] [xc3] (-9) /\
  ~ In CR (printed_by world_garbled boot).
Proof.
  assert (Hok : console_ok world_garbled) by (intros evs t; reflexivity).
  split; [exact Hok|]. split; [reflexivity|].
  exact (proj1 (printed_report_is_clean world_garbled boot _ _ _
                  Hok eq_refl)).
Defined.

(** X7.  The text captured from a pipe under [text=True],
    [encoding='utf-8'], [errors='ignore'] holds only Unicode scalar
    values, holds no carriage return, and has at most as many code points
    as the pipe had bytes. *)
Theorem captured_text_is_clean (data : list byte) :
  forallb Utf8.is_scalar (captured data) = true
  /\ ~ In CR (captured data)
  /\ (List.length (captured data) <= List.length data)%nat.
Proof.
  unfold captured, Utf8.decode.
  destruct (Utf8Facts.decode_loop_ignore_total data 0 0) as [t Ht].
  rewrite Ht. split; [|split].
  - apply CaptureFacts.translate_newlines_scalar.
    apply (CaptureFacts.decode_loop_ignore_scalar _ _ _ _ Ht).
  - apply CaptureFacts.translate_newlines_no_CR.
  - pose proof (CaptureFacts.translate_newlines_length t).
    pose proof (CaptureFacts.decode_loop_ignore_length _ _ _ _ Ht). lia.
Qed.

(** X8.  Output of the child made of bytes below 80 is captured
    character for character, up to the newline translation; without a
    0D byte it is captured unchanged. *)
Theorem captured_ascii (data : list byte) :
  forallb (fun b => Utf8.byte_val b <? 0x80) data = true ->
  captured data = Utf8.translate_newlines (map Utf8.byte_val data)
  /\ (~ In CR (map Utf8.byte_val data) ->
      captured data = map Utf8.byte_val data).
Proof.
  intros Hascii.
  assert (H : captured data
              = Utf8.translate_newlines (map Utf8.byte_val data)).
  { unfold captured, Utf8.decode.
    rewrite (CaptureFacts.decode_loop_ascii _ _ Hascii). reflexivity. }
  split; [exact H|].
  intros Hno. rewrite H. apply CaptureFacts.translate_newlines_id, Hno.
Qed.

Lemma captured_ascii_witness :
  forallb (fun b => Utf8.byte_val b <? 0x80)
          [x65; x72; x72; x6f; x72; x3a; x20; x62; x61; x64; x20;
           x61; x72; x67] = true /\
  captured [x65; x72; x72; x6f; x72; x3a; x20; x62; x61; x64; x20;
            x61; x72; x67]
  = map Utf8.byte_val
        [x65; x72; x72; x6f; x72; x3a; x20; x62; x61; x64; x20;
         x61; x72; x67].
Proof.
  split; [reflexivity|].
  apply (proj2 (captured_ascii
                  [x65; x72; x72; x6f; x72; x3a; x20; x62; x61; x64; x20;
                   x61; x72; x67] eq_refl)).
  simpl. intros H.
  repeat (destruct H as [H|H]; [discriminate|]). exact H.
Defined.

(** X9.  Capturing loses nothing a second time: the captured text,
    encoded as UTF-8 and captured again, is the same text. *)
Theorem captured_is_stable (data : list byte) :
  captured (Utf8.encode (captured data)) = captured data.
Proof.
  assert (Hscalar : forallb Utf8.is_scalar (captured data) = true
                    /\ ~ In CR (captured data)).
  { unfold captured, Utf8.decode.
    destruct (Utf8Facts.decode_loop_ignore_total data 0 0) as [t Ht].
    rewrite Ht. split.
    - apply CaptureFacts.translate_newlines_scalar.
      apply (CaptureFacts.decode_loop_ignore_scalar _ _ _ _ Ht).
    - apply CaptureFacts.translate_newlines_no_CR. }
  destruct Hscalar as [Hscalar Hno].
  unfold captured at 1. unfold Utf8.decode.
  rewrite (Utf8Facts.decode_loop_encode _ _ Hscalar).
  apply CaptureFacts.translate_newlines_id, Hno.
Qed.
